(** * Calculadora de juros compostos: the projection loop and the reverse solver

    Shallow embedding of the computational core of
    [streamlit_compound_calculator.py]:

    - l.13-21    the scenario file          ([carregar_cenarios], [salvar_cenarios])
    - l.50-83    the scenario management    ([bloco_salvar], [bloco_carregar],
                                             [bloco_excluir], [gestao])
    - l.88-90    the rate conversion        ([meses], [taxa_mensal], [cdi_mensal])
    - l.92-103   the accumulation loop      ([corpo], [laco]; [corpo64], [laco64])
    - l.105-111  the data frame             ([projecao], [df])
    - l.147-166  the reverse calculator     ([PMT], [calculadora_reversa])

    Numbers.  Python [int] values ([anos], [meses], the loop index [m]) are
    [Z].  Python [float] values are modelled twice.  Over the real numbers
    [R], where every operation is the exact one: this is the model of the
    statements in which both sides are the same expression of the code, or
    in which rounding, being monotone, cannot change the outcome.  And over
    binary64 (the primitive floats), for the loop alone, whose operations
    are the processor's [+], [-] and [*]: this is the model of the
    statements that depend on rounding.  The power [**] is a call into the
    C library and exists over [R] only.

    Faults.  Three operations of the script can raise: the true division
    [/], with [ZeroDivisionError] on a zero divisor; the power [**], with
    [OverflowError] when the result leaves the float range; and the
    subscript [l[-1]], with [IndexError] on an empty list.  Code that uses
    them lives in the [resultado] monad.  The arithmetic [+], [-], [*] of
    floats never raises.

    Inputs.  The functions take the values the script's variables hold at
    l.88, whether they were typed into the sidebar widgets (l.39-43, which
    bound them: minimum [0.0] for the four amounts and rates, [1..50] for
    the years) or read back from a saved scenario (l.70-75, no check). *)

From Stdlib Require Import String Ascii Reals Lra Lia ZArith List.
From Stdlib Require Floats.
Import ListNotations.
Local Open Scope R_scope.

(** ** Fragments of the Python runtime used by the script *)

Inductive excecao : Type :=
| ZeroDivisionError
| IndexError
| OverflowError.

Inductive resultado (A : Type) : Type :=
| Ok (a : A)
| Erro (e : excecao).

Arguments Ok {A} a.
Arguments Erro {A} e.

Definition bind {A B : Type} (r : resultado A) (k : A -> resultado B) : resultado B :=
  match r with
  | Ok a => k a
  | Erro e => Erro e
  end.

Notation "x <- r ;; k" := (bind r (fun x => k))
  (at level 61, r at next level, right associativity).

(** [x / y] on floats: a zero divisor raises. *)
Definition truediv (x y : R) : resultado R :=
  if Req_dec_T y 0 then Erro ZeroDivisionError else Ok (x / y).

(** [range(stop)]: the integers [0, 1, ..., stop-1]; empty when [stop <= 0]. *)
Definition range (stop : Z) : list Z :=
  map Z.of_nat (seq 0 (Z.to_nat stop)).

(** [l[-1]]: the last element; raises on the empty list. *)
Definition ultimo (l : list R) : resultado R :=
  match l with
  | [] => Erro IndexError
  | _ :: _ => Ok (last l 0)
  end.

(** [x ** y] with a float exponent.  The model is the real power
    [exp (y * ln x)], which is Python's result for a positive base [x].
    The script only ever raises [1 + taxa/100], positive as soon as
    [-100 < taxa].  For a base [x <= 0] the model does not follow Python
    (which gives [0.0] at [0] and a complex number below): a statement
    that depends on the value of a converted rate assumes [-100 < taxa]. *)
Definition pow_float (x y : R) : R := Rpower x y.

(** The least magnitude that binary64 rounds to infinity. *)
Definition limiar_overflow : R := IZR (2 ^ 1024 - 2 ^ 970).

(** [x ** n] with an [int] exponent: a zero base with a negative exponent
    raises [ZeroDivisionError], a result out of the float range raises
    [OverflowError].  The script applies it to the base [1 + i] with
    [0 < i] only. *)
Definition pow_int (x : R) (n : Z) : resultado R :=
  if Req_dec_T x 0 then
    if (n <? 0)%Z then Erro ZeroDivisionError else Ok (powerRZ x n)
  else if Rlt_dec (Rabs (powerRZ x n)) limiar_overflow then Ok (powerRZ x n)
  else Erro OverflowError.

(** ** Rate conversion (l.88-90) *)

(** [meses = anos * 12] *)
Definition meses (anos : Z) : Z := (anos * 12)%Z.

(** [taxa_mensal = (1 + taxa_anual/100) ** (1/12) - 1] *)
Definition taxa_mensal (taxa_anual : R) : R :=
  pow_float (1 + taxa_anual / 100) (1 / 12) - 1.

(** [cdi_mensal = (1 + cdi_medio/100) ** (1/12) - 1] *)
Definition cdi_mensal (cdi_medio : R) : R :=
  pow_float (1 + cdi_medio / 100) (1 / 12) - 1.

(** ** The accumulation loop (l.92-103) *)

(** The six variables the loop reads and writes. *)
Record Estado : Type := mkEstado {
  saldos : list R;
  aportes : list R;
  ganhos : list R;
  cdi_ref : list R;
  saldo : R;
  saldo_cdi : R
}.

Section Laco.

(** Values, at loop entry, of [valor_inicial], [aporte_mensal],
    [taxa_mensal], [cdi_mensal] and [meses]. *)
Variables (valor_inicial aporte_mensal : R).
Variables (taxa cdi : R).
Variable (n_meses : Z).

(** l.92-94 *)
Definition estado_inicial : Estado :=
  {| saldos := []; aportes := []; ganhos := []; cdi_ref := [];
     saldo := valor_inicial; saldo_cdi := valor_inicial |}.

(** l.97-103: one iteration, for the loop index [m]. *)
Definition corpo (s : Estado) (m : Z) : Estado :=
  let saldos' := saldos s ++ [saldo s] in
  let aportes' := aportes s ++ [valor_inicial + aporte_mensal * IZR m] in
  let ganhos' := ganhos s ++ [saldo s - (valor_inicial + aporte_mensal * IZR m)] in
  let cdi_ref' := cdi_ref s ++ [saldo_cdi s] in
  if (m <? n_meses)%Z then
    {| saldos := saldos'; aportes := aportes'; ganhos := ganhos';
       cdi_ref := cdi_ref';
       saldo := saldo s * (1 + taxa) + aporte_mensal;
       saldo_cdi := saldo_cdi s * (1 + cdi) + aporte_mensal |}
  else
    {| saldos := saldos'; aportes := aportes'; ganhos := ganhos';
       cdi_ref := cdi_ref';
       saldo := saldo s; saldo_cdi := saldo_cdi s |}.

(** l.96: [for m in range(meses+1)] *)
Definition laco : Estado :=
  fold_left corpo (range (n_meses + 1)) estado_inicial.

End Laco.

(** ** The accumulation loop in binary64 (l.92-103) *)



Section Laco64.

Variables (valor_inicial aporte_mensal : PrimFloat.float).
Variables (taxa cdi : PrimFloat.float).
Variable (n_meses : Z).




End Laco64.


(** ** The data frame (l.105-111) *)

Record DataFrame : Type := mkDataFrame {
  Mes : list Z;
  Saldo_acumulado : list R;
  Total_aportado : list R;
  Ganhos : list R;
  Saldo_CDI : list R
}.

(** One row of the table: a projection point. *)
Record Linha : Type := mkLinha {
  mes : Z;
  saldo_acumulado : R;
  total_aportado : R;
  ganho : R;
  saldo_CDI : R
}.

Definition linha (d : DataFrame) (k : nat) : option Linha :=
  match nth_error (Mes d) k, nth_error (Saldo_acumulado d) k,
        nth_error (Total_aportado d) k, nth_error (Ganhos d) k,
        nth_error (Saldo_CDI d) k with
  | Some m, Some s, Some t, Some g, Some c => Some (mkLinha m s t g c)
  | _, _, _, _, _ => None
  end.

(** l.105-111: the table built from the lists the loop leaves behind. *)
Definition projecao (valor_inicial aporte_mensal taxa cdi : R) (n_meses : Z)
    : DataFrame :=
  let s := laco valor_inicial aporte_mensal taxa cdi n_meses in
  {| Mes := range (n_meses + 1);
     Saldo_acumulado := saldos s;
     Total_aportado := aportes s;
     Ganhos := ganhos s;
     Saldo_CDI := cdi_ref s |}.

(** The calculation section of the script, l.88-111, as a function of the
    five sidebar inputs. *)
Definition df (valor_inicial aporte_mensal taxa_anual : R) (anos : Z)
    (cdi_medio : R) : DataFrame :=
  projecao valor_inicial aporte_mensal (taxa_mensal taxa_anual)
    (cdi_mensal cdi_medio) (meses anos).

(** ** The reverse calculator (l.147-166) *)

(** What the block shows on the page. *)
Inductive Exibicao : Type :=
| nada
| st_error (mensagem : string)
| st_markdown (pmt meta_final : R).

Definition mensagem_meta_atingida : string :=
  "Com os parâmetros atuais, a meta já é atingida sem aportes adicionais."%string.

(** Whether the block is the red box of [st.error]. *)
Definition caixa_de_erro (x : Exibicao) : bool :=
  match x with
  | st_error _ => true
  | _ => false
  end.

(** l.154: the divisor [((1+i)**n - 1)/i]. *)
Definition fator_de_anuidade (i : R) (n : Z) : resultado R :=
  q <- pow_int (1 + i) n ;;
  truediv (q - 1) i.

(** l.149-156: the required monthly contribution.  In l.154 the dividend
    is evaluated first, then the divisor. *)
Definition PMT (FV P i : R) (n : Z) : resultado R :=
  if Rlt_dec 0 i then
    q <- pow_int (1 + i) n ;;
    fator <- fator_de_anuidade i n ;;
    truediv (FV - P * q) fator
  else
    truediv (FV - P) (IZR n).

(** l.147-166 *)
Definition calculadora_reversa (meta_final valor_inicial taxa : R) (n_meses : Z)
    : resultado Exibicao :=
  if Rlt_dec 0 meta_final then
    pmt <- PMT meta_final valor_inicial taxa n_meses ;;
    if Rlt_dec pmt 0 then Ok (st_error mensagem_meta_atingida)
    else Ok (st_markdown pmt meta_final)
  else Ok nada.


(** ** One run of the script (l.88-166) *)

(** What a run that does not raise leaves on the page: the table, the three
    metrics of the summary (l.135-139) and the reverse calculator's block. *)
Record Pagina : Type := mkPagina {
  tabela : DataFrame;
  valor_final : R;
  total_aportado_final : R;
  ganhos_finais : R;
  reversa : Exibicao
}.

Definition executar (valor_inicial aporte_mensal taxa_anual : R) (anos : Z)
    (cdi_medio meta_final : R) : resultado Pagina :=
  let s := laco valor_inicial aporte_mensal (taxa_mensal taxa_anual)
             (cdi_mensal cdi_medio) (meses anos) in
  vf <- ultimo (saldos s) ;;
  ta <- ultimo (aportes s) ;;
  gf <- ultimo (ganhos s) ;;
  r <- calculadora_reversa meta_final valor_inicial (taxa_mensal taxa_anual)
         (meses anos) ;;
  Ok {| tabela := df valor_inicial aporte_mensal taxa_anual anos cdi_medio;
        valor_final := vf; total_aportado_final := ta; ganhos_finais := gf;
        reversa := r |}.

(** The inputs the sidebar widgets let through (l.39-43), with the horizon
    counted in months. *)
Definition parametros_validos (valor_inicial aporte_mensal taxa_anual cdi_medio : R)
    (n_meses : Z) : Prop :=
  0 <= valor_inicial /\ 0 <= aporte_mensal /\ 0 <= taxa_anual /\
  0 <= cdi_medio /\ (1 <= n_meses)%Z.

(** ** Saved scenarios (l.11-23 and l.50-83) *)

(** A JSON number as [json.load] returns it: a [float] or an [int]. *)
Inductive numero : Type :=
| Float (x : R)
| Int (z : Z).

(** A Python [dict] with string keys.  The order of the keys is the order
    of first insertion, which [list(cenarios.keys())] (l.64) shows in the
    select box; the keys of a dict are pairwise distinct. *)
Definition dict (V : Type) : Type := list (string * V).

(** [d.get(k)] *)
Fixpoint dict_get {V : Type} (d : dict V) (k : string) : option V :=
  match d with
  | [] => None
  | (k', v) :: r => if String.eqb k' k then Some v else dict_get r k
  end.

(** [d[k] = v]: an existing key keeps its place, a new one goes last. *)
Fixpoint dict_set {V : Type} (d : dict V) (k : string) (v : V) : dict V :=
  match d with
  | [] => [(k, v)]
  | (k', v') :: r =>
      if String.eqb k' k then (k', v) :: r else (k', v') :: dict_set r k v
  end.

(** [del d[k]]; [None] stands for the [KeyError] of a missing key. *)
Fixpoint dict_del {V : Type} (d : dict V) (k : string) : option (dict V) :=
  match d with
  | [] => None
  | (k', v') :: r =>
      if String.eqb k' k then Some r
      else match dict_del r k with
           | Some r' => Some ((k', v') :: r')
           | None => None
           end
  end.

(** [list(d.keys())] *)
Definition dict_keys {V : Type} (d : dict V) : list string := map fst d.

Inductive erro_de_chave : Type :=
| KeyError (chave : string).

(** [d[k]] *)
Definition subscrito {V : Type} (d : dict V) (k : string) : erro_de_chave + V :=
  match dict_get d k with
  | Some v => inr v
  | None => inl (KeyError k)
  end.

(** Truth value of a string in an [if]: non-empty. *)
Definition verdadeiro (s : string) : bool := negb (String.eqb s "").

(** One saved scenario, and the content of [cenarios.json]. *)
Definition Cenario : Type := dict numero.
Definition Cenarios : Type := dict Cenario.

(** The file [FILE_PATH]: [None] when it does not exist, otherwise the
    object it holds.  [json.dump] followed by [json.load] gives a dict of
    floats and ints back unchanged, keys in the same order. *)
Definition Arquivo : Type := option Cenarios.

(** l.13-17 *)
Definition carregar_cenarios (f : Arquivo) : Cenarios :=
  match f with
  | Some c => c
  | None => []
  end.

(** l.19-21 *)
Definition salvar_cenarios (c : Cenarios) : Arquivo := Some c.

(** The five variables of the sidebar (l.39-43), as the widgets set them or
    as a loaded scenario replaces them (l.71-75). *)
Record Variaveis : Type := mkVariaveis {
  var_valor_inicial : numero;
  var_aporte_mensal : numero;
  var_taxa_anual : numero;
  var_anos : numero;
  var_cdi_medio : numero
}.

(** What the widgets return: floats for the number inputs, an int for the
    slider. *)
Definition dos_widgets (valor_inicial aporte_mensal taxa_anual : R) (anos : Z)
    (cdi_medio : R) : Variaveis :=
  {| var_valor_inicial := Float valor_inicial;
     var_aporte_mensal := Float aporte_mensal;
     var_taxa_anual := Float taxa_anual;
     var_anos := Int anos;
     var_cdi_medio := Float cdi_medio |}.

(** l.52-58: the dict stored under the scenario's name. *)
Definition cenario_de (x : Variaveis) : Cenario :=
  [("valor_inicial"%string, var_valor_inicial x);
   ("aporte_mensal"%string, var_aporte_mensal x);
   ("taxa_anual"%string, var_taxa_anual x);
   ("anos"%string, var_anos x);
   ("cdi_medio"%string, var_cdi_medio x)].

(** The messages of the sidebar (l.60, 62, 76, 83). *)
Inductive Aviso : Type :=
| cenario_salvo (nome : string)
| digite_um_nome
| cenario_carregado (nome : string)
| cenario_excluido (nome : string).

(** State of the scenario management while the script runs: the file, the
    global [cenarios], the five variables and the messages shown so far. *)
Record Gestao : Type := mkGestao {
  arquivo : Arquivo;
  cenarios : Cenarios;
  variaveis : Variaveis;
  avisos : list Aviso
}.

(** l.70-75: the variables read from the scenario [dados]. *)
Definition ler_cenario (dados : Cenario) : erro_de_chave + Variaveis :=
  match subscrito dados "valor_inicial" with
  | inl e => inl e
  | inr vi =>
  match subscrito dados "aporte_mensal" with
  | inl e => inl e
  | inr am =>
  match subscrito dados "taxa_anual" with
  | inl e => inl e
  | inr ta =>
  match subscrito dados "anos" with
  | inl e => inl e
  | inr an =>
      inr {| var_valor_inicial := vi;
             var_aporte_mensal := am;
             var_taxa_anual := ta;
             var_anos := an;
             var_cdi_medio :=
               match dict_get dados "cdi_medio" with
               | Some c => c
               | None => Float 0
               end |}
  end end end end.

Section BlocosDaGestao.

(** [str.strip], of which the script only tests the result for emptiness. *)
Variable strip : string -> string.

(** l.50-62: the button "Salvar cenário". *)
Definition bloco_salvar (clicado : bool) (nome_cenario : string) (g : Gestao)
    : Gestao :=
  if clicado then
    if verdadeiro (strip nome_cenario) then
      let c := dict_set (cenarios g) nome_cenario (cenario_de (variaveis g)) in
      {| arquivo := salvar_cenarios c;
         cenarios := c;
         variaveis := variaveis g;
         avisos := avisos g ++ [cenario_salvo nome_cenario] |}
    else
      {| arquivo := arquivo g;
         cenarios := cenarios g;
         variaveis := variaveis g;
         avisos := avisos g ++ [digite_um_nome] |}
  else g.

(** l.67-76: the button "Carregar". *)
Definition bloco_carregar (clicado : bool) (opcao : string) (g : Gestao)
    : erro_de_chave + Gestao :=
  if verdadeiro opcao then
    if clicado then
      match subscrito (cenarios g) opcao with
      | inl e => inl e
      | inr dados =>
          match ler_cenario dados with
          | inl e => inl e
          | inr x =>
              inr {| arquivo := arquivo g;
                     cenarios := cenarios g;
                     variaveis := x;
                     avisos := avisos g ++ [cenario_carregado opcao] |}
          end
      end
    else inr g
  else inr g.

(** l.78-83: the button "Excluir". *)
Definition bloco_excluir (clicado : bool) (opcao : string) (g : Gestao)
    : erro_de_chave + Gestao :=
  if verdadeiro opcao then
    if clicado then
      match dict_del (cenarios g) opcao with
      | None => inl (KeyError opcao)
      | Some c =>
          inr {| arquivo := salvar_cenarios c;
                 cenarios := c;
                 variaveis := variaveis g;
                 avisos := avisos g ++ [cenario_excluido opcao] |}
      end
    else inr g
  else inr g.

(** l.23-83, one run of the script up to the calculation: the file as the
    run leaves it, and either the state the calculation starts from or the
    [KeyError] that stopped the run.  [opcao] is the entry picked in the
    select box of l.64. *)
Definition gestao (f : Arquivo) (x : Variaveis) (nome_cenario : string)
    (salvar : bool) (opcao : string) (carregar excluir : bool)
    : Arquivo * (erro_de_chave + Gestao) :=
  let g0 := {| arquivo := f; cenarios := carregar_cenarios f;
               variaveis := x; avisos := [] |} in
  let g1 := bloco_salvar salvar nome_cenario g0 in
  match bloco_carregar carregar opcao g1 with
  | inl e => (arquivo g1, inl e)
  | inr g2 =>
      match bloco_excluir excluir opcao g2 with
      | inl e => (arquivo g2, inl e)
      | inr g3 => (arquivo g3, inr g3)
      end
  end.

(** l.64: the entries of the select box once the save block has run. *)
Definition opcoes (f : Arquivo) (x : Variaveis) (nome_cenario : string)
    (salvar : bool) : list string :=
  let g0 := {| arquivo := f; cenarios := carregar_cenarios f;
               variaveis := x; avisos := [] |} in
  ""%string :: dict_keys (cenarios (bloco_salvar salvar nome_cenario g0)).

End BlocosDaGestao.

(** [str.strip] on ASCII text: the characters 9-13 and 28-32 are the ASCII
    white space. *)
Definition isspace (c : ascii) : bool :=
  let n := nat_of_ascii c in
  orb (andb (9 <=? n)%nat (n <=? 13)%nat) (andb (28 <=? n)%nat (n <=? 32)%nat).

Fixpoint lstrip (s : string) : string :=
  match s with
  | EmptyString => EmptyString
  | String c r => if isspace c then lstrip r else s
  end.

Definition inverter (s : string) : string :=
  string_of_list_ascii (rev (list_ascii_of_string s)).

Definition strip_ascii (s : string) : string :=
  inverter (lstrip (inverter (lstrip s))).

(** The keys a load reads with a subscript (l.71-74). *)
Definition chaves_obrigatorias : list string :=
  ["valor_inicial"%string; "aporte_mensal"%string; "taxa_anual"%string;
   "anos"%string].

(** A scenario that has them all. *)
Definition completo (dados : Cenario) : Prop :=
  forall k : string, In k chaves_obrigatorias -> dict_get dados k <> None.

(** What the save block establishes for every scenario it stores: distinct
    names, each accepted by the test of l.51, each with the keys of
    l.53-57. *)
Definition cenarios_bem_formados (strip : string -> string) (c : Cenarios) : Prop :=
  NoDup (dict_keys c) /\
  (forall k : string, In k (dict_keys c) -> verdadeiro (strip k) = true) /\
  (forall (k : string) (dados : Cenario), In (k, dados) c -> completo dados).

(** The file and the global [cenarios] agree. *)
Definition em_dia (g : Gestao) : Prop := carregar_cenarios (arquivo g) = cenarios g.

(** ** Auxiliary sequences for the loop *)

(** The sequence the loop variable [saldo] runs through: the value it holds
    after [k] updates at rate [r]. *)
Fixpoint recorrencia (valor_inicial aporte_mensal r : R) (k : nat) : R :=
  match k with
  | O => valor_inicial
  | S k' => recorrencia valor_inicial aporte_mensal r k' * (1 + r) + aporte_mensal
  end.

(** The loop state after the first [k] iterations. *)
Definition prefixo (v a i c : R) (n : Z) (k : nat) : Estado :=
  fold_left (corpo v a i c n) (map Z.of_nat (seq 0 k)) (estado_inicial v).



(** ** Facts about the runtime fragments *)

Lemma truediv_ok (x y : R) : y <> 0 -> truediv x y = Ok (x / y).
Proof.
  intros Hy. unfold truediv.
  destruct (Req_dec_T y 0) as [E | _]; [contradiction | reflexivity].
Qed.

Lemma truediv_zero (x : R) : truediv x 0 = Erro ZeroDivisionError.
Proof.
  unfold truediv. destruct (Req_dec_T 0 0) as [_ | N]; [reflexivity | now elim N].
Qed.

(** ** The loop, iteration by iteration *)

Section LacoInvariante.

Variables (v a i c : R) (n : Z).

Lemma prefixo_S (k : nat) :
  prefixo v a i c n (S k) = corpo v a i c n (prefixo v a i c n k) (Z.of_nat k).
Proof.
  unfold prefixo. rewrite seq_S, map_app, fold_left_app. reflexivity.
Qed.

Lemma laco_prefixo : laco v a i c n = prefixo v a i c n (Z.to_nat (n + 1)).
Proof. reflexivity. Qed.

Lemma ramo_atualiza (k : nat) :
  (Z.of_nat k <? n)%Z = true ->
  Nat.min k (Z.to_nat n) = k /\ Nat.min (S k) (Z.to_nat n) = S k.
Proof. intros H. apply Z.ltb_lt in H. lia. Qed.

Lemma ramo_final (k : nat) :
  (Z.of_nat k <? n)%Z = false ->
  Nat.min k (Z.to_nat n) = Z.to_nat n /\ Nat.min (S k) (Z.to_nat n) = Z.to_nat n.
Proof. intros H. apply Z.ltb_ge in H. lia. Qed.

(** The running balances: after [k] iterations they have been updated
    [min k meses] times. *)
Lemma prefixo_saldo (k : nat) :
  saldo (prefixo v a i c n k) = recorrencia v a i (Nat.min k (Z.to_nat n)) /\
  saldo_cdi (prefixo v a i c n k) = recorrencia v a c (Nat.min k (Z.to_nat n)).
Proof.
  induction k as [| k [IHs IHc]].
  - split; reflexivity.
  - rewrite prefixo_S. unfold corpo.
    destruct (Z.of_nat k <? n)%Z eqn:E; cbn [saldo saldo_cdi].
    + destruct (ramo_atualiza k E) as [Hk HSk].
      rewrite HSk, IHs, IHc, Hk. split; reflexivity.
    + destruct (ramo_final k E) as [Hk HSk].
      rewrite HSk, IHs, IHc, Hk. split; reflexivity.
Qed.

Lemma prefixo_listas (k : nat) :
  saldos (prefixo v a i c n k) =
    map (fun m => recorrencia v a i (Nat.min m (Z.to_nat n))) (seq 0 k) /\
  aportes (prefixo v a i c n k) = map (fun m => v + a * IZR (Z.of_nat m)) (seq 0 k) /\
  ganhos (prefixo v a i c n k) =
    map (fun m => recorrencia v a i (Nat.min m (Z.to_nat n))
                  - (v + a * IZR (Z.of_nat m))) (seq 0 k) /\
  cdi_ref (prefixo v a i c n k) =
    map (fun m => recorrencia v a c (Nat.min m (Z.to_nat n))) (seq 0 k).
Proof.
  induction k as [| k (IH1 & IH2 & IH3 & IH4)].
  - repeat split; reflexivity.
  - rewrite prefixo_S. destruct (prefixo_saldo k) as [Hs Hc].
    rewrite seq_S, !map_app. cbn [map Nat.add].
    unfold corpo.
    destruct (Z.of_nat k <? n)%Z;
      cbn [saldos aportes ganhos cdi_ref];
      rewrite IH1, IH2, IH3, IH4, Hs, Hc; repeat split; reflexivity.
Qed.

Lemma map_seq_min (f : nat -> R) (k : nat) :
  (k <= S (Z.to_nat n))%nat ->
  map (fun m => f (Nat.min m (Z.to_nat n))) (seq 0 k) = map f (seq 0 k).
Proof.
  intros Hk. apply map_ext_in. intros m Hm. apply in_seq in Hm.
  f_equal. lia.
Qed.

Lemma horizonte_le : (Z.to_nat (n + 1) <= S (Z.to_nat n))%nat.
Proof. lia. Qed.

(** The four lists the loop leaves behind. *)
Lemma laco_saldos :
  saldos (laco v a i c n) = map (recorrencia v a i) (seq 0 (Z.to_nat (n + 1))).
Proof.
  rewrite laco_prefixo. destruct (prefixo_listas (Z.to_nat (n + 1))) as (H & _).
  rewrite H. apply map_seq_min, horizonte_le.
Qed.

Lemma laco_cdi_ref :
  cdi_ref (laco v a i c n) = map (recorrencia v a c) (seq 0 (Z.to_nat (n + 1))).
Proof.
  rewrite laco_prefixo. destruct (prefixo_listas (Z.to_nat (n + 1))) as (_ & _ & _ & H).
  rewrite H. apply map_seq_min, horizonte_le.
Qed.

Lemma laco_aportes :
  aportes (laco v a i c n) =
  map (fun m => v + a * IZR (Z.of_nat m)) (seq 0 (Z.to_nat (n + 1))).
Proof.
  rewrite laco_prefixo. now destruct (prefixo_listas (Z.to_nat (n + 1))) as (_ & H & _).
Qed.

Lemma laco_ganhos :
  ganhos (laco v a i c n) =
  map (fun m => recorrencia v a i m - (v + a * IZR (Z.of_nat m)))
      (seq 0 (Z.to_nat (n + 1))).
Proof.
  rewrite laco_prefixo. destruct (prefixo_listas (Z.to_nat (n + 1))) as (_ & _ & H & _).
  rewrite H. apply map_ext_in. intros m Hm. apply in_seq in Hm.
  replace (Nat.min m (Z.to_nat n)) with m by lia. reflexivity.
Qed.

End LacoInvariante.

(** The loop run by hand on short horizons: one row per month from 0 to
    [meses], the balance updated between rows but not after the last one;
    no row at all when [meses + 1 <= 0]. *)
Example laco_dois_meses (v a i c : R) :
  laco v a i c 2 =
  {| saldos := [v; v * (1 + i) + a; (v * (1 + i) + a) * (1 + i) + a];
     aportes := [v + a * 0; v + a * 1; v + a * 2];
     ganhos := [v - (v + a * 0);
                v * (1 + i) + a - (v + a * 1);
                (v * (1 + i) + a) * (1 + i) + a - (v + a * 2)];
     cdi_ref := [v; v * (1 + c) + a; (v * (1 + c) + a) * (1 + c) + a];
     saldo := (v * (1 + i) + a) * (1 + i) + a;
     saldo_cdi := (v * (1 + c) + a) * (1 + c) + a |}.
Proof. reflexivity. Qed.

Example laco_zero_meses (v a i c : R) :
  laco v a i c 0 =
  {| saldos := [v]; aportes := [v + a * 0]; ganhos := [v - (v + a * 0)];
     cdi_ref := [v]; saldo := v; saldo_cdi := v |}.
Proof. reflexivity. Qed.

Example laco_horizonte_negativo (v a i c : R) :
  laco v a i c (-1) = estado_inicial v.
Proof. reflexivity. Qed.

(** ** Arithmetic of the rate conversion *)

Lemma pow_float_raiz (x : R) : 0 < x -> pow_float x (1 / 12) ^ 12 = x.
Proof.
  intros Hx. unfold pow_float.
  rewrite <- Rpower_pow by apply exp_pos.
  rewrite Rpower_mult.
  replace (1 / 12 * INR 12) with 1 by (simpl; field).
  now apply Rpower_1.
Qed.

Lemma pow_float_ge_1 (x : R) : 1 <= x -> 1 <= pow_float x (1 / 12).
Proof.
  intros Hx. unfold pow_float.
  apply Rle_trans with (Rpower x 0).
  - rewrite Rpower_O; lra.
  - apply Rle_Rpower; lra.
Qed.

Lemma pow_float_1 (y : R) : pow_float 1 y = 1.
Proof.
  unfold pow_float, Rpower. now rewrite ln_1, Rmult_0_r, exp_0.
Qed.

Lemma taxa_mensal_0 : taxa_mensal 0 = 0.
Proof.
  unfold taxa_mensal. replace (1 + 0 / 100) with 1 by field.
  rewrite pow_float_1. ring.
Qed.

Lemma taxa_mensal_nonneg (taxa_anual : R) :
  0 <= taxa_anual -> 0 <= taxa_mensal taxa_anual.
Proof.
  intros H. unfold taxa_mensal.
  assert (1 <= pow_float (1 + taxa_anual / 100) (1 / 12)) by (apply pow_float_ge_1; lra).
  lra.
Qed.

(** ** Arithmetic of the recurrence *)

Lemma powerRZ_pow (x : R) (n : Z) : (0 <= n)%Z -> powerRZ x n = x ^ Z.to_nat n.
Proof. intros Hn. rewrite pow_powerRZ. now rewrite Z2Nat.id. Qed.

Lemma limiar_acima_de_2 : 2 < limiar_overflow.
Proof. unfold limiar_overflow. apply IZR_lt. reflexivity. Qed.

Lemma pow_int_ok (x : R) (n : Z) :
  0 < x -> (0 <= n)%Z -> x ^ Z.to_nat n < limiar_overflow ->
  pow_int x n = Ok (x ^ Z.to_nat n).
Proof.
  intros Hx Hn Hlim. unfold pow_int.
  destruct (Req_dec_T x 0) as [E | _]; [lra |].
  rewrite (powerRZ_pow x n Hn).
  rewrite Rabs_pos_eq by (apply pow_le; lra).
  destruct (Rlt_dec (x ^ Z.to_nat n) limiar_overflow) as [_ | N];
    [reflexivity | contradiction].
Qed.

Lemma pow_int_overflow (x : R) (n : Z) :
  0 < x -> (0 <= n)%Z -> limiar_overflow <= x ^ Z.to_nat n ->
  pow_int x n = Erro OverflowError.
Proof.
  intros Hx Hn Hlim. unfold pow_int.
  destruct (Req_dec_T x 0) as [E | _]; [lra |].
  rewrite (powerRZ_pow x n Hn).
  rewrite Rabs_pos_eq by (apply pow_le; lra).
  destruct (Rlt_dec (x ^ Z.to_nat n) limiar_overflow) as [C | _];
    [lra | reflexivity].
Qed.

Lemma recorrencia_taxa_zero (v a : R) (k : nat) :
  recorrencia v a 0 k = v + a * INR k.
Proof.
  induction k as [| k IH].
  - simpl. ring.
  - rewrite S_INR. simpl. rewrite IH. ring.
Qed.

Lemma recorrencia_nonneg (v a r : R) (k : nat) :
  0 <= v -> 0 <= a -> 0 <= r -> 0 <= recorrencia v a r k.
Proof.
  intros Hv Ha Hr. induction k as [| k IH]; simpl; [assumption |].
  assert (0 <= recorrencia v a r k * (1 + r)) by (apply Rmult_le_pos; lra).
  lra.
Qed.

Lemma recorrencia_cresce (v a r : R) (k : nat) :
  0 <= v -> 0 <= a -> 0 <= r ->
  recorrencia v a r k <= recorrencia v a r (S k).
Proof.
  intros Hv Ha Hr. simpl.
  pose proof (recorrencia_nonneg v a r k Hv Ha Hr) as H.
  assert (0 <= recorrencia v a r k * r) by (apply Rmult_le_pos; lra).
  lra.
Qed.

(** The annuity factor [((1+i)**n - 1)/i]. *)
Lemma fator_positivo (i : R) (k : nat) :
  0 < i -> (1 <= k)%nat -> 0 < ((1 + i) ^ k - 1) / i.
Proof.
  intros Hi Hk.
  assert (1 < (1 + i) ^ k) by (apply Rlt_pow_R1; [lra | lia]).
  apply Rdiv_lt_0_compat; lra.
Qed.

(** ** Reading the lists by index *)

Lemma nth_map_seq (f : nat -> R) (len m : nat) :
  (m < len)%nat -> nth m (map f (seq 0 len)) 0 = f m.
Proof.
  intros Hm.
  rewrite (nth_indep _ 0 (f 0%nat)) by now rewrite length_map, length_seq.
  rewrite map_nth. now rewrite seq_nth.
Qed.

Lemma nth_error_map_seq (f : nat -> R) (len m : nat) :
  nth_error (map f (seq 0 len)) m = if (m <? len)%nat then Some (f m) else None.
Proof.
  destruct (m <? len)%nat eqn:E.
  - apply Nat.ltb_lt in E. rewrite nth_error_map.
    rewrite (nth_error_nth' _ 0%nat) by now rewrite length_seq.
    now rewrite seq_nth.
  - apply Nat.ltb_ge in E. apply nth_error_None.
    now rewrite length_map, length_seq.
Qed.

Lemma last_map_seq (f : nat -> R) (k : nat) :
  last (map f (seq 0 (S k))) 0 = f k.
Proof.
  rewrite seq_S, map_app. simpl. apply last_last.
Qed.

Lemma ultimo_map_seq (f : nat -> R) (k : nat) :
  ultimo (map f (seq 0 (S k))) = Ok (f k).
Proof.
  unfold ultimo. rewrite <- (last_map_seq f k).
  destruct (map f (seq 0 (S k))) eqn:E; [| reflexivity].
  apply (f_equal (@length R)) in E. rewrite length_map, length_seq in E. discriminate.
Qed.

(** ** The projection series *)

(** The columns of the table, in closed form over the loop index. *)
Lemma projecao_colunas (v a i c : R) (n : Z) :
  let d := projecao v a i c n in
  let len := Z.to_nat (n + 1) in
  Mes d = map Z.of_nat (seq 0 len) /\
  Saldo_acumulado d = map (recorrencia v a i) (seq 0 len) /\
  Total_aportado d = map (fun m => v + a * IZR (Z.of_nat m)) (seq 0 len) /\
  Ganhos d =
    map (fun m => recorrencia v a i m - (v + a * IZR (Z.of_nat m))) (seq 0 len) /\
  Saldo_CDI d = map (recorrencia v a c) (seq 0 len).
Proof.
  cbn zeta. unfold projecao. cbn [Mes Saldo_acumulado Total_aportado Ganhos Saldo_CDI].
  rewrite laco_saldos, laco_aportes, laco_ganhos, laco_cdi_ref.
  repeat split; reflexivity.
Qed.

(** The rows of the table. *)
Lemma linha_projecao (v a i c : R) (n : Z) (k : nat) :
  linha (projecao v a i c n) k =
  if (k <? Z.to_nat (n + 1))%nat then
    Some {| mes := Z.of_nat k;
            saldo_acumulado := recorrencia v a i k;
            total_aportado := v + a * IZR (Z.of_nat k);
            ganho := recorrencia v a i k - (v + a * IZR (Z.of_nat k));
            saldo_CDI := recorrencia v a c k |}
  else None.
Proof.
  destruct (projecao_colunas v a i c n) as (H1 & H2 & H3 & H4 & H5).
  unfold linha. rewrite H1, H2, H3, H4, H5.
  rewrite !nth_error_map_seq.
  rewrite nth_error_map.
  destruct (k <? Z.to_nat (n + 1))%nat eqn:E.
  - apply Nat.ltb_lt in E.
    rewrite (nth_error_nth' _ 0%nat) by now rewrite length_seq.
    rewrite seq_nth by assumption. reflexivity.
  - apply Nat.ltb_ge in E.
    replace (nth_error (seq 0 (Z.to_nat (n + 1))) k) with (@None nat).
    + reflexivity.
    + symmetry. apply nth_error_None. now rewrite length_seq.
Qed.

(** C1. For valid parameters the projection has exactly [meses + 1] points,
    for the months [0 .. meses]; the month-0 balance is the initial capital;
    and from each month [m < meses] to the next the balance is multiplied by
    [1 + taxa_mensal] and the monthly contribution is added.  The benchmark
    column obeys the same recurrence at the rate [cdi_mensal]. *)
Theorem C1_serie_da_projecao (v a taxa_anual cdi_medio : R) (n : Z) :
  parametros_validos v a taxa_anual cdi_medio n ->
  let d := projecao v a (taxa_mensal taxa_anual) (cdi_mensal cdi_medio) n in
  Mes d = map Z.of_nat (seq 0 (S (Z.to_nat n))) /\
  length (Saldo_acumulado d) = S (Z.to_nat n) /\
  length (Total_aportado d) = S (Z.to_nat n) /\
  length (Ganhos d) = S (Z.to_nat n) /\
  length (Saldo_CDI d) = S (Z.to_nat n) /\
  nth 0 (Saldo_acumulado d) 0 = v /\
  nth 0 (Saldo_CDI d) 0 = v /\
  (forall m : nat, (m < Z.to_nat n)%nat ->
     nth (S m) (Saldo_acumulado d) 0 =
       nth m (Saldo_acumulado d) 0 * (1 + taxa_mensal taxa_anual) + a /\
     nth (S m) (Saldo_CDI d) 0 =
       nth m (Saldo_CDI d) 0 * (1 + cdi_mensal cdi_medio) + a).
Proof.
  intros (_ & _ & _ & _ & Hn) d.
  destruct (projecao_colunas v a (taxa_mensal taxa_anual) (cdi_mensal cdi_medio) n)
    as (H1 & H2 & H3 & H4 & H5).
  fold d in H1, H2, H3, H4, H5.
  replace (Z.to_nat (n + 1)) with (S (Z.to_nat n)) in * by lia.
  rewrite H1, H2, H3, H4, H5.
  rewrite !length_map, !length_seq.
  do 5 (split; [reflexivity |]).
  split; [now rewrite nth_map_seq by lia |].
  split; [now rewrite nth_map_seq by lia |].
  intros m Hm.
  rewrite !(nth_map_seq _ _ (S m)), !(nth_map_seq _ _ m) by lia.
  split; reflexivity.
Qed.

Lemma C1_serie_da_projecao_witness :
  parametros_validos 1000 100 12 10 12 /\
  let d := projecao 1000 100 (taxa_mensal 12) (cdi_mensal 10) 12 in
  length (Saldo_acumulado d) = 13%nat /\
  nth 0 (Saldo_acumulado d) 0 = 1000 /\
  nth 1 (Saldo_acumulado d) 0 = nth 0 (Saldo_acumulado d) 0 * (1 + taxa_mensal 12) + 100.
Proof.
  assert (Hv : parametros_validos 1000 100 12 10 12)
    by (unfold parametros_validos; repeat split; lra || lia).
  split; [exact Hv |].
  destruct (C1_serie_da_projecao 1000 100 12 10 12 Hv)
    as (_ & Hlen & _ & _ & _ & H0 & _ & Hrec).
  cbv zeta.
  split; [exact Hlen |].
  split; [exact H0 |].
  apply (Hrec 0%nat). simpl. lia.
Defined.

(** C3. At every point of the series of valid parameters the gain is the
    balance minus the cumulative contribution, and the cumulative
    contribution of month [m] is [valor_inicial + aporte_mensal * m]. *)
Theorem C3_ganho_e_total_aportado (v a taxa_anual cdi_medio : R) (n : Z)
    (k : nat) (p : Linha) :
  parametros_validos v a taxa_anual cdi_medio n ->
  linha (projecao v a (taxa_mensal taxa_anual) (cdi_mensal cdi_medio) n) k = Some p ->
  ganho p = saldo_acumulado p - total_aportado p /\
  total_aportado p = v + a * IZR (mes p) /\
  mes p = Z.of_nat k.
Proof.
  intros _ Hp. rewrite linha_projecao in Hp.
  destruct (k <? Z.to_nat (n + 1))%nat; [| discriminate].
  injection Hp as <-. cbn. repeat split; reflexivity.
Qed.

Lemma C3_ganho_e_total_aportado_witness :
  parametros_validos 1000 100 12 10 12 /\
  exists p : Linha,
    linha (projecao 1000 100 (taxa_mensal 12) (cdi_mensal 10) 12) 1 = Some p /\
    ganho p = saldo_acumulado p - total_aportado p /\
    total_aportado p = 1000 + 100 * IZR (mes p) /\
    mes p = 1%Z.
Proof.
  assert (Hv : parametros_validos 1000 100 12 10 12)
    by (unfold parametros_validos; repeat split; lra || lia).
  split; [exact Hv |].
  eexists. split.
  - rewrite linha_projecao. reflexivity.
  - apply (C3_ganho_e_total_aportado 1000 100 12 10 12 1 _ Hv).
    rewrite linha_projecao. reflexivity.
Defined.

(** C7. For valid parameters (non-negative capital, contribution and annual
    rate) the balance never decreases from one month to the next. *)
Theorem C7_saldo_nao_decresce (v a taxa_anual cdi_medio : R) (n : Z) (m : nat) :
  parametros_validos v a taxa_anual cdi_medio n ->
  (m < Z.to_nat n)%nat ->
  let d := projecao v a (taxa_mensal taxa_anual) (cdi_mensal cdi_medio) n in
  nth (S m) (Saldo_acumulado d) 0 >= nth m (Saldo_acumulado d) 0.
Proof.
  intros (Hv & Ha & Ht & _ & Hn) Hm d.
  destruct (projecao_colunas v a (taxa_mensal taxa_anual) (cdi_mensal cdi_medio) n)
    as (_ & H2 & _).
  fold d in H2. rewrite H2.
  rewrite (nth_map_seq _ _ (S m)), (nth_map_seq _ _ m) by lia.
  apply Rle_ge, recorrencia_cresce; try assumption.
  now apply taxa_mensal_nonneg.
Qed.

Lemma C7_saldo_nao_decresce_witness :
  parametros_validos 1000 100 12 10 12 /\
  let d := projecao 1000 100 (taxa_mensal 12) (cdi_mensal 10) 12 in
  nth 12 (Saldo_acumulado d) 0 >= nth 11 (Saldo_acumulado d) 0.
Proof.
  assert (Hv : parametros_validos 1000 100 12 10 12)
    by (unfold parametros_validos; repeat split; lra || lia).
  split; [exact Hv |].
  apply (C7_saldo_nao_decresce 1000 100 12 10 12 11 Hv). simpl. lia.
Defined.

(** ** The loop in binary64, iteration by iteration *)


Section Laco64Invariante.

Variables (v a i c : PrimFloat.float) (n : Z).







End Laco64Invariante.




(** ** The rate conversion *)

(** Bernoulli's inequality, strict from the second power on. *)
Lemma bernoulli_estrito (y : R) (k : nat) :
  0 < y -> 1 + INR (S (S k)) * y < (1 + y) ^ S (S k).
Proof.
  intros Hy. induction k as [| k IH].
  - simpl. nra.
  - rewrite S_INR.
    change ((1 + y) ^ S (S (S k))) with ((1 + y) * (1 + y) ^ S (S k)).
    assert (0 < INR (S (S k))) by (apply lt_0_INR; lia).
    nra.
Qed.

Lemma taxa_mensal_composta (taxa_anual : R) :
  -100 < taxa_anual -> (1 + taxa_mensal taxa_anual) ^ 12 = 1 + taxa_anual / 100.
Proof.
  intros H. unfold taxa_mensal.
  replace (1 + (pow_float (1 + taxa_anual / 100) (1 / 12) - 1))
    with (pow_float (1 + taxa_anual / 100) (1 / 12)) by ring.
  apply pow_float_raiz. lra.
Qed.

Lemma taxa_mensal_menor_que_duodecimo (taxa_anual : R) :
  0 < taxa_anual -> taxa_mensal taxa_anual < taxa_anual / 100 / 12.
Proof.
  intros H.
  destruct (Rlt_le_dec (taxa_mensal taxa_anual) (taxa_anual / 100 / 12)) as [Hlt | Hge];
    [assumption | exfalso].
  assert (Hy : 0 < taxa_anual / 100 / 12) by lra.
  assert (Hbase : 0 <= 1 + taxa_anual / 100 / 12) by lra.
  assert (Hord : 1 + taxa_anual / 100 / 12 <= 1 + taxa_mensal taxa_anual) by lra.
  assert (Hgt : -100 < taxa_anual) by lra.
  pose proof (pow_incr _ _ 12 (conj Hbase Hord)) as Hmono.
  rewrite (taxa_mensal_composta taxa_anual Hgt) in Hmono.
  pose proof (bernoulli_estrito _ 10 Hy) as Hb.
  replace (INR 12) with 12 in Hb by (simpl; ring).
  set (p := (1 + taxa_anual / 100 / 12) ^ 12) in *.
  clearbody p. lra.
Qed.

Lemma taxa_mensal_pos (taxa_anual : R) : 0 < taxa_anual -> 0 < taxa_mensal taxa_anual.
Proof.
  intros H.
  destruct (taxa_mensal_nonneg taxa_anual ltac:(lra)) as [Hpos | Hzero]; [assumption |].
  pose proof (taxa_mensal_composta taxa_anual ltac:(lra)) as Hc.
  rewrite <- Hzero in Hc. replace (1 + 0) with 1 in Hc by ring.
  rewrite pow1 in Hc. lra.
Qed.

(** Every monthly rate above -100% is the conversion of an annual rate, so
    that a statement about every converted rate is one about every rate. *)
Lemma taxa_mensal_sobrejetiva (i : R) :
  -1 < i ->
  taxa_mensal (100 * ((1 + i) ^ 12 - 1)) = i /\
  (0 <= i -> 0 <= 100 * ((1 + i) ^ 12 - 1)).
Proof.
  intros Hi. split.
  - unfold taxa_mensal, pow_float.
    replace (1 + 100 * ((1 + i) ^ 12 - 1) / 100) with ((1 + i) ^ 12) by field.
    rewrite <- (Rpower_pow 12 (1 + i)) by lra.
    rewrite Rpower_mult.
    replace (INR 12 * (1 / 12)) with 1 by (simpl; field).
    rewrite Rpower_1 by lra. ring.
  - intros H0. assert (1 <= (1 + i) ^ 12) by (apply pow_R1_Rle; lra). lra.
Qed.

(** C4. For a non-negative annual rate (in percent) both conversions, of
    the investment's rate and of the CDI, give the monthly rate
    [(1 + taxa/100) ** (1/12) - 1], which is not negative and is zero for a
    zero annual rate.  It is not the twelfth of the annual rate: from 1% a
    year on it lies strictly below it. *)
Theorem C4_taxa_mensal_equivalente (taxa_anual : R) :
  0 <= taxa_anual ->
  taxa_mensal taxa_anual = Rpower (1 + taxa_anual / 100) (1 / 12) - 1 /\
  cdi_mensal taxa_anual = Rpower (1 + taxa_anual / 100) (1 / 12) - 1 /\
  0 <= taxa_mensal taxa_anual /\
  0 <= cdi_mensal taxa_anual /\
  (taxa_anual = 0 -> taxa_mensal taxa_anual = 0 /\ cdi_mensal taxa_anual = 0) /\
  (1 <= taxa_anual ->
   taxa_mensal taxa_anual < taxa_anual / 100 / 12 /\
   cdi_mensal taxa_anual < taxa_anual / 100 / 12).
Proof.
  intros H.
  split; [reflexivity |]. split; [reflexivity |].
  split; [now apply taxa_mensal_nonneg |].
  split; [now apply (taxa_mensal_nonneg taxa_anual) |].
  split.
  - intros ->. split; apply taxa_mensal_0.
  - intros H1. split; apply (taxa_mensal_menor_que_duodecimo taxa_anual); lra.
Qed.

Lemma C4_taxa_mensal_equivalente_witness :
  0 <= 12 /\
  cdi_mensal 12 = Rpower (1 + 12 / 100) (1 / 12) - 1 /\
  0 <= taxa_mensal 12 /\
  taxa_mensal 12 < 12 / 100 / 12.
Proof.
  split; [lra |].
  destruct (C4_taxa_mensal_equivalente 12 ltac:(lra)) as (_ & Hc & Hp & _ & _ & Hlt).
  split; [exact Hc |]. split; [exact Hp |].
  apply Hlt. lra.
Defined.

(** ** The reverse calculator *)

Lemma fator_de_anuidade_ok (i : R) (n : Z) :
  0 < i -> (1 <= n)%Z -> (1 + i) ^ Z.to_nat n < limiar_overflow ->
  fator_de_anuidade i n = Ok (((1 + i) ^ Z.to_nat n - 1) / i).
Proof.
  intros Hi Hn Hlim. unfold fator_de_anuidade.
  rewrite pow_int_ok by (lra || lia). cbn [bind].
  apply truediv_ok. lra.
Qed.

Lemma PMT_taxa_positiva (FV P i : R) (n : Z) :
  0 < i -> (1 <= n)%Z -> (1 + i) ^ Z.to_nat n < limiar_overflow ->
  PMT FV P i n =
  Ok ((FV - P * (1 + i) ^ Z.to_nat n) / (((1 + i) ^ Z.to_nat n - 1) / i)).
Proof.
  intros Hi Hn Hlim. unfold PMT.
  destruct (Rlt_dec 0 i) as [_ | N]; [| contradiction].
  rewrite pow_int_ok by (lra || lia). cbn [bind].
  rewrite fator_de_anuidade_ok by assumption. cbn [bind].
  apply truediv_ok.
  apply Rgt_not_eq, fator_positivo; [assumption | lia].
Qed.

Lemma PMT_overflow (FV P i : R) (n : Z) :
  0 < i -> (0 <= n)%Z -> limiar_overflow <= (1 + i) ^ Z.to_nat n ->
  PMT FV P i n = Erro OverflowError.
Proof.
  intros Hi Hn Hlim. unfold PMT.
  destruct (Rlt_dec 0 i) as [_ | N]; [| contradiction].
  rewrite pow_int_overflow by (lra || lia). reflexivity.
Qed.

Lemma PMT_taxa_nao_positiva (FV P i : R) (n : Z) :
  i <= 0 -> (n <> 0)%Z -> PMT FV P i n = Ok ((FV - P) / IZR n).
Proof.
  intros Hi Hn. unfold PMT.
  destruct (Rlt_dec 0 i) as [C | _]; [lra |].
  apply truediv_ok. now apply not_0_IZR.
Qed.

(** Whatever the rate, with a horizon of at least one month the block
    returns a contribution or stops on the overflow of the power. *)
Lemma PMT_resultado (FV P i : R) (n : Z) :
  (1 <= n)%Z ->
  (exists pmt : R, PMT FV P i n = Ok pmt) \/
  (PMT FV P i n = Erro OverflowError /\ 0 < i /\
   limiar_overflow <= (1 + i) ^ Z.to_nat n).
Proof.
  intros Hn. destruct (Rlt_le_dec 0 i) as [Hpos | Hle].
  - destruct (Rlt_le_dec ((1 + i) ^ Z.to_nat n) limiar_overflow) as [Hlim | Hlim].
    + left. eexists. now apply PMT_taxa_positiva.
    + right. split; [apply PMT_overflow; (assumption || lia) | now split].
  - left. eexists. apply PMT_taxa_nao_positiva; [assumption | lia].
Qed.

Lemma PMT_sem_divisao_por_zero (FV P i : R) (n : Z) :
  (1 <= n)%Z -> PMT FV P i n <> Erro ZeroDivisionError.
Proof.
  intros Hn. destruct (PMT_resultado FV P i n Hn) as [(pmt & H) | (H & _)];
    rewrite H; discriminate.
Qed.

(** C10. For a converted monthly rate [i > 0] and a horizon of at least one
    month, the divisor [((1+i)**n - 1)/i] of l.154 is strictly positive
    whenever it is computed, so that the block never divides by zero: it
    returns the quotient by that divisor, unless the power leaves the float
    range and raises [OverflowError] before any division. *)
Theorem C10_divisor_positivo (taxa_anual : R) (n : Z) :
  0 <= taxa_anual -> 0 < taxa_mensal taxa_anual -> (1 <= n)%Z ->
  let i := taxa_mensal taxa_anual in
  (forall fator : R, fator_de_anuidade i n = Ok fator -> 0 < fator) /\
  fator_de_anuidade i n <> Erro ZeroDivisionError /\
  (forall FV P : R, PMT FV P i n <> Erro ZeroDivisionError) /\
  (forall FV P : R,
     (1 + i) ^ Z.to_nat n < limiar_overflow ->
     exists fator : R,
       fator_de_anuidade i n = Ok fator /\ 0 < fator /\
       PMT FV P i n = Ok ((FV - P * (1 + i) ^ Z.to_nat n) / fator)).
Proof.
  intros _ Hi Hn i. fold i in Hi.
  assert (Hpos : 0 < ((1 + i) ^ Z.to_nat n - 1) / i)
    by (apply fator_positivo; [assumption | lia]).
  assert (Hf : forall fator : R, fator_de_anuidade i n = Ok fator -> 0 < fator).
  { intros fator. destruct (Rlt_le_dec ((1 + i) ^ Z.to_nat n) limiar_overflow) as [Hlim | Hlim].
    - rewrite fator_de_anuidade_ok by assumption. now intros [= <-].
    - unfold fator_de_anuidade. rewrite pow_int_overflow by (lra || lia). discriminate. }
  split; [exact Hf |]. split.
  - destruct (Rlt_le_dec ((1 + i) ^ Z.to_nat n) limiar_overflow) as [Hlim | Hlim].
    + rewrite fator_de_anuidade_ok by assumption. discriminate.
    + unfold fator_de_anuidade. rewrite pow_int_overflow by (lra || lia). discriminate.
  - split; [intros FV P; now apply PMT_sem_divisao_por_zero |].
    intros FV P Hlim. exists (((1 + i) ^ Z.to_nat n - 1) / i).
    split; [now apply fator_de_anuidade_ok |]. split; [exact Hpos |].
    now apply PMT_taxa_positiva.
Qed.

Lemma potencia_de_12_por_cento : (1 + taxa_mensal 12) ^ Z.to_nat 12 < limiar_overflow.
Proof.
  change (Z.to_nat 12) with 12%nat. rewrite taxa_mensal_composta by lra.
  pose proof limiar_acima_de_2. lra.
Qed.

Lemma C10_divisor_positivo_witness :
  0 <= 12 /\ 0 < taxa_mensal 12 /\ (1 <= 12)%Z /\
  (forall FV P : R, PMT FV P (taxa_mensal 12) 12 <> Erro ZeroDivisionError) /\
  exists fator : R,
    fator_de_anuidade (taxa_mensal 12) 12 = Ok fator /\ 0 < fator.
Proof.
  assert (Hi : 0 < taxa_mensal 12) by (apply taxa_mensal_pos; lra).
  split; [lra |]. split; [exact Hi |]. split; [lia |].
  destruct (C10_divisor_positivo 12 12 ltac:(lra) Hi ltac:(lia)) as (_ & _ & Hz & Hq).
  split; [exact Hz |].
  destruct (Hq 0 0 potencia_de_12_por_cento) as (fator & Hf & Hpos & _).
  exists fator. split; [exact Hf | exact Hpos].
Defined.

Lemma potencia_de_200_milhoes_por_cento :
  limiar_overflow <= (1 + taxa_mensal 200000000) ^ Z.to_nat (meses 50).
Proof.
  change (Z.to_nat (meses 50)) with (12 * 50)%nat.
  rewrite pow_mult, taxa_mensal_composta by lra.
  replace (1 + 200000000 / 100) with (IZR 2000001) by lra.
  rewrite pow_IZR. unfold limiar_overflow.
  apply IZR_le. vm_compute. discriminate.
Qed.

(** C2 as the specification states it does not hold: at an annual rate of
    200,000,000% over 50 years, which the widgets accept, the block returns
    no contribution; the power of l.154 leaves the float range and raises
    [OverflowError]. *)
Lemma C2_contraexemplo :
  0 <= 200000000 /\ (1 <= meses 50)%Z /\
  PMT 1000 0 (taxa_mensal 200000000) (meses 50) = Erro OverflowError.
Proof.
  split; [lra |]. split; [unfold meses; lia |].
  apply PMT_overflow.
  - apply taxa_mensal_pos. lra.
  - unfold meses. lia.
  - exact potencia_de_200_milhoes_por_cento.
Qed.

(** C2, as the code has it.  For a monthly rate [i >= 0] converted from an
    annual rate and a horizon [n >= 1]: when [i > 0] the contribution is
    [(FV - P*(1+i)^n) / (((1+i)^n - 1)/i)], provided the power stays in the
    float range, and otherwise the power raises [OverflowError]; when
    [i = 0] the contribution is [(FV - P) / n]; and in no case is a division
    by zero raised. *)
Theorem C2_PMT_formula (FV P taxa_anual : R) (n : Z) :
  0 <= taxa_anual -> (1 <= n)%Z ->
  let i := taxa_mensal taxa_anual in
  0 <= i /\
  (0 < i -> (1 + i) ^ Z.to_nat n < limiar_overflow ->
   PMT FV P i n =
   Ok ((FV - P * (1 + i) ^ Z.to_nat n) / (((1 + i) ^ Z.to_nat n - 1) / i))) /\
  (0 < i -> limiar_overflow <= (1 + i) ^ Z.to_nat n ->
   PMT FV P i n = Erro OverflowError) /\
  (i = 0 -> PMT FV P i n = Ok ((FV - P) / IZR n)) /\
  PMT FV P i n <> Erro ZeroDivisionError.
Proof.
  intros Ht Hn i.
  split; [now apply taxa_mensal_nonneg |].
  split; [intros Hpos Hlim; now apply PMT_taxa_positiva |].
  split; [intros Hpos Hlim; apply PMT_overflow; (assumption || lia) |].
  split; [intros H0; apply PMT_taxa_nao_positiva; [lra | lia] |].
  now apply PMT_sem_divisao_por_zero.
Qed.

Lemma C2_PMT_formula_witness :
  0 <= 0 /\ (1 <= 12)%Z /\
  PMT 2200 1000 (taxa_mensal 0) 12 = Ok 100 /\
  PMT 2200 1000 (taxa_mensal 0) 12 <> Erro ZeroDivisionError.
Proof.
  split; [lra |]. split; [lia |].
  destruct (C2_PMT_formula 2200 1000 0 12 ltac:(lra) ltac:(lia)) as (_ & _ & _ & H0 & Hz).
  split; [| exact Hz].
  rewrite (H0 taxa_mensal_0). f_equal. lra.
Defined.

Lemma calculadora_reversa_negativo (meta v i : R) (n : Z) (pmt : R) :
  0 < meta -> PMT meta v i n = Ok pmt -> pmt < 0 ->
  calculadora_reversa meta v i n = Ok (st_error mensagem_meta_atingida).
Proof.
  intros Hm Hp Hneg. unfold calculadora_reversa.
  destruct (Rlt_dec 0 meta) as [_ | N]; [| contradiction].
  rewrite Hp. cbn [bind].
  destruct (Rlt_dec pmt 0) as [_ | N]; [reflexivity | contradiction].
Qed.

Lemma calculadora_reversa_nao_negativo (meta v i : R) (n : Z) (pmt : R) :
  0 < meta -> PMT meta v i n = Ok pmt -> 0 <= pmt ->
  calculadora_reversa meta v i n = Ok (st_markdown pmt meta).
Proof.
  intros Hm Hp Hpos. unfold calculadora_reversa.
  destruct (Rlt_dec 0 meta) as [_ | N]; [| contradiction].
  rewrite Hp. cbn [bind].
  destruct (Rlt_dec pmt 0) as [C | _]; [lra | reflexivity].
Qed.

Lemma calculadora_reversa_sem_meta (meta v i : R) (n : Z) :
  meta <= 0 -> calculadora_reversa meta v i n = Ok nada.
Proof.
  intros Hm. unfold calculadora_reversa.
  destruct (Rlt_dec 0 meta) as [C | _]; [lra | reflexivity].
Qed.

(** C5 as the specification states it does not hold: the outcome for a
    negative contribution is not a result of its own, reported as
    feasible and kept apart from the errors.  With a target of 500, an
    initial capital of 1000, a zero rate and 12 months the contribution is
    negative and the block is the red box of [st.error]. *)
Lemma C5_contraexemplo :
  exists (pmt : R) (r : Exibicao),
    PMT 500 1000 0 12 = Ok pmt /\ pmt < 0 /\
    calculadora_reversa 500 1000 0 12 = Ok r /\
    caixa_de_erro r = true.
Proof.
  assert (Hp : PMT 500 1000 0 12 = Ok ((500 - 1000) / 12))
    by (apply PMT_taxa_nao_positiva; [lra | lia]).
  assert (Hneg : (500 - 1000) / 12 < 0) by lra.
  exists ((500 - 1000) / 12), (st_error mensagem_meta_atingida).
  split; [exact Hp |]. split; [exact Hneg |].
  split; [| reflexivity].
  apply (calculadora_reversa_negativo 500 1000 0 12 _ ltac:(lra) Hp Hneg).
Qed.

(** C5, as the code has it.  When a target was entered and the contribution
    computed for it is negative, the block shows, through [st.error], the
    message that the target is already reached without further
    contributions, and not the contribution: the outcome is never the
    [st_markdown] that carries a value. *)
Theorem C5_meta_ja_atingida (meta v i : R) (n : Z) (pmt : R) :
  0 < meta ->
  PMT meta v i n = Ok pmt ->
  pmt < 0 ->
  calculadora_reversa meta v i n = Ok (st_error mensagem_meta_atingida) /\
  (forall x y : R, calculadora_reversa meta v i n <> Ok (st_markdown x y)).
Proof.
  intros Hm Hp Hneg.
  rewrite (calculadora_reversa_negativo meta v i n pmt Hm Hp Hneg).
  split; [reflexivity | discriminate].
Qed.

Lemma C5_meta_ja_atingida_witness :
  exists pmt : R,
    0 < 1000100 /\
    PMT 1000100 1000000 (taxa_mensal 12) 12 = Ok pmt /\
    pmt < 0 /\
    calculadora_reversa 1000100 1000000 (taxa_mensal 12) 12 =
      Ok (st_error mensagem_meta_atingida).
Proof.
  assert (Hi : 0 < taxa_mensal 12) by (apply taxa_mensal_pos; lra).
  assert (Hp := PMT_taxa_positiva 1000100 1000000 (taxa_mensal 12) 12 Hi ltac:(lia)
                  potencia_de_12_por_cento).
  change (Z.to_nat 12) with 12%nat in Hp.
  rewrite taxa_mensal_composta in Hp by lra.
  eexists. split; [lra |]. split; [exact Hp |].
  assert (Hneg : (1000100 - 1000000 * (1 + 12 / 100))
                 / ((1 + 12 / 100 - 1) / taxa_mensal 12) < 0).
  { apply Rdiv_neg_pos; [lra |]. apply Rdiv_lt_0_compat; lra. }
  split; [exact Hneg |].
  apply (C5_meta_ja_atingida 1000100 1000000 (taxa_mensal 12) 12 _ ltac:(lra) Hp Hneg).
Defined.

(** ** A whole run, and what it does with out-of-range inputs *)

Lemma calculadora_reversa_resultado (meta v i : R) (n : Z) :
  (1 <= n)%Z ->
  (exists r : Exibicao, calculadora_reversa meta v i n = Ok r) \/
  (calculadora_reversa meta v i n = Erro OverflowError /\ 0 < meta /\ 0 < i /\
   limiar_overflow <= (1 + i) ^ Z.to_nat n).
Proof.
  intros Hn. destruct (Rlt_le_dec 0 meta) as [Hm | Hm].
  - destruct (PMT_resultado meta v i n Hn) as [(pmt & Hp) | (Hp & Hi & Hlim)].
    + left. destruct (Rlt_le_dec pmt 0) as [Hneg | Hpos].
      * eexists. eapply calculadora_reversa_negativo; eassumption.
      * eexists. eapply calculadora_reversa_nao_negativo; eassumption.
    + right. split; [| now repeat split].
      unfold calculadora_reversa.
      destruct (Rlt_dec 0 meta) as [_ | N]; [| contradiction].
      now rewrite Hp.
  - left. eexists. now apply calculadora_reversa_sem_meta.
Qed.

(** With a horizon of at least one year the summary reads the last entries
    of the lists, and the run ends as the reverse calculator does. *)
Lemma executar_forma (v a t : R) (anos : Z) (c meta : R) :
  (1 <= anos)%Z ->
  executar v a t anos c meta =
  (r <- calculadora_reversa meta v (taxa_mensal t) (meses anos) ;;
   Ok {| tabela := df v a t anos c;
         valor_final := recorrencia v a (taxa_mensal t) (Z.to_nat (meses anos));
         total_aportado_final := v + a * IZR (meses anos);
         ganhos_finais :=
           recorrencia v a (taxa_mensal t) (Z.to_nat (meses anos))
           - (v + a * IZR (meses anos));
         reversa := r |}).
Proof.
  intros Hanos.
  assert (Hn : (1 <= meses anos)%Z) by (unfold meses; lia).
  unfold executar.
  rewrite laco_saldos, laco_aportes, laco_ganhos.
  replace (Z.to_nat (meses anos + 1)) with (S (Z.to_nat (meses anos))) by lia.
  rewrite !ultimo_map_seq. cbn [bind].
  rewrite Z2Nat.id by lia. reflexivity.
Qed.

(** With a horizon of zero years the table has its single month-0 row and
    the reverse calculator, once a target is entered, divides by zero. *)
Lemma executar_horizonte_zero (v a t c meta : R) :
  0 < meta -> executar v a t 0 c meta = Erro ZeroDivisionError.
Proof.
  intros Hm. unfold executar, calculadora_reversa, PMT. cbn [meses Z.mul].
  cbn [laco range Z.add Z.to_nat Pos.to_nat Pos.iter_op seq map fold_left corpo
       estado_inicial saldos aportes ganhos app ultimo bind].
  destruct (Rlt_dec 0 meta) as [_ | N]; [| contradiction].
  destruct (Rlt_dec 0 (taxa_mensal t)) as [Hi | Hi].
  - assert (Hq : pow_int (1 + taxa_mensal t) 0 = Ok 1).
    { rewrite pow_int_ok; [reflexivity | lra | lia |].
      simpl. pose proof limiar_acima_de_2. lra. }
    unfold fator_de_anuidade. rewrite Hq. cbn [bind].
    rewrite truediv_ok by lra. cbn [bind].
    replace ((1 - 1) / taxa_mensal t) with 0 by (field; lra).
    now rewrite truediv_zero.
  - now rewrite truediv_zero.
Qed.

(** With a negative horizon the loop does not run and the summary's
    [saldos[-1]] (l.135) raises. *)
Lemma executar_horizonte_negativo (v a t c meta : R) (anos : Z) :
  (anos < 0)%Z -> executar v a t anos c meta = Erro IndexError.
Proof.
  intros Hanos. unfold executar.
  rewrite laco_saldos.
  replace (Z.to_nat (meses anos + 1)) with 0%nat by (unfold meses; lia).
  reflexivity.
Qed.

(** C9, as the code has it.  The calculation validates nothing: for any
    initial capital and monthly contribution, of either sign, any annual
    rates above -100% and a horizon of at least one year, the table is the
    same projection as for valid inputs ([12 * anos + 1] rows, the initial
    capital unclamped in month 0, the same recurrence from month to month)
    and the run shows it: it returns, unless a target was entered and the
    power of the reverse calculator leaves the float range, the one fault
    such a run can stop on. *)
Theorem C9_sem_validacao (v a t c meta : R) (anos : Z) :
  (1 <= anos)%Z -> -100 < t -> -100 < c ->
  let d := df v a t anos c in
  length (Saldo_acumulado d) = S (Z.to_nat (meses anos)) /\
  nth 0 (Saldo_acumulado d) 0 = v /\
  (forall m : nat, (m < Z.to_nat (meses anos))%nat ->
     nth (S m) (Saldo_acumulado d) 0 =
     nth m (Saldo_acumulado d) 0 * (1 + taxa_mensal t) + a) /\
  (forall pg : Pagina, executar v a t anos c meta = Ok pg -> tabela pg = d) /\
  (forall e : excecao,
     executar v a t anos c meta = Erro e ->
     e = OverflowError /\ 0 < meta /\ 0 < taxa_mensal t) /\
  (meta <= 0 -> exists pg : Pagina, executar v a t anos c meta = Ok pg).
Proof.
  intros Hanos _ _ d.
  assert (Hn : (1 <= meses anos)%Z) by (unfold meses; lia).
  destruct (projecao_colunas v a (taxa_mensal t) (cdi_mensal c) (meses anos))
    as (_ & H2 & _).
  replace (Z.to_nat (meses anos + 1)) with (S (Z.to_nat (meses anos))) in H2 by lia.
  unfold d, df. rewrite H2.
  split; [now rewrite length_map, length_seq |].
  split; [now rewrite nth_map_seq by lia |].
  split.
  { intros m Hm.
    rewrite (nth_map_seq _ _ (S m)), (nth_map_seq _ _ m) by lia. reflexivity. }
  rewrite (executar_forma v a t anos c meta Hanos).
  destruct (calculadora_reversa_resultado meta v (taxa_mensal t) (meses anos) Hn)
    as [(r & Hr) | (Hr & Hm & Hi & _)]; rewrite Hr; cbn [bind].
  - split; [intros pg [= <-]; reflexivity |].
    split; [discriminate |]. intros _. now eexists.
  - split; [discriminate |]. split.
    + intros e [= <-]. now repeat split.
    + intros Hle. lra.
Qed.

Lemma C9_sem_validacao_witness :
  (1 <= 1)%Z /\ -100 < -5 /\ -100 < 0 /\
  nth 0 (Saldo_acumulado (df (-100) (-10) (-5) 1 0)) 0 = -100 /\
  nth 1 (Saldo_acumulado (df (-100) (-10) (-5) 1 0)) 0 =
    nth 0 (Saldo_acumulado (df (-100) (-10) (-5) 1 0)) 0 * (1 + taxa_mensal (-5)) + -10 /\
  exists pg : Pagina, executar (-100) (-10) (-5) 1 0 0 = Ok pg.
Proof.
  split; [lia |]. split; [lra |]. split; [lra |].
  destruct (C9_sem_validacao (-100) (-10) (-5) 0 0 1 ltac:(lia) ltac:(lra) ltac:(lra))
    as (_ & H0 & Hrec & _ & _ & Hok).
  split; [exact H0 |]. split; [apply (Hrec 0%nat); simpl; lia |].
  apply Hok. lra.
Defined.

(** C9 as the specification states it does not hold: a negative initial
    capital is not rejected.  The run returns, and the table and the
    summary carry the negative value. *)
Lemma C9_contraexemplo :
  -100 < 0 /\
  exists pg : Pagina,
    executar (-100) 0 0 1 0 0 = Ok pg /\
    nth 0 (Saldo_acumulado (tabela pg)) 0 = -100 /\
    valor_final pg = -100 /\
    reversa pg = nada.
Proof.
  split; [lra |].
  pose proof (executar_forma (-100) 0 0 1 0 0 ltac:(lia)) as He.
  rewrite calculadora_reversa_sem_meta in He by lra. cbn [bind] in He.
  eexists. split; [exact He |]. cbn [tabela valor_final reversa].
  split; [reflexivity |].
  split; [| reflexivity].
  rewrite taxa_mensal_0, recorrencia_taxa_zero. ring.
Qed.

(** ** Further properties of the projection *)

Lemma taxa_mensal_monotona (x y : R) :
  -100 < x -> x <= y -> taxa_mensal x <= taxa_mensal y.
Proof.
  intros Hx Hxy. unfold taxa_mensal, pow_float.
  assert (Rpower (1 + x / 100) (1 / 12) <= Rpower (1 + y / 100) (1 / 12))
    by (apply Rle_Rpower_l; lra).
  lra.
Qed.

Lemma recorrencia_monotona_na_taxa (v a r1 r2 : R) (k : nat) :
  0 <= v -> 0 <= a -> 0 <= r1 -> r1 <= r2 ->
  recorrencia v a r1 k <= recorrencia v a r2 k.
Proof.
  intros Hv Ha Hr1 Hr. induction k as [| k IH]; simpl; [lra |].
  pose proof (recorrencia_nonneg v a r1 k Hv Ha Hr1) as H1.
  assert (recorrencia v a r1 k * (1 + r1) <= recorrencia v a r2 k * (1 + r2))
    by (apply Rmult_le_compat; lra).
  lra.
Qed.

(** X2. With non-negative capital and contribution, a reference rate (CDI)
    between 0 and the investment's annual rate never gives a larger balance:
    in every month the column "Saldo CDI" is at most "Saldo acumulado". *)
Theorem X2_saldo_cdi_nao_supera (v a taxa_anual cdi_medio : R) (n : Z) (m : nat) :
  0 <= v -> 0 <= a -> 0 <= cdi_medio -> cdi_medio <= taxa_anual ->
  (Z.of_nat m <= n)%Z ->
  let d := projecao v a (taxa_mensal taxa_anual) (cdi_mensal cdi_medio) n in
  nth m (Saldo_CDI d) 0 <= nth m (Saldo_acumulado d) 0.
Proof.
  intros Hv Ha Hc Hct Hm d.
  destruct (projecao_colunas v a (taxa_mensal taxa_anual) (cdi_mensal cdi_medio) n)
    as (_ & H2 & _ & _ & H5).
  fold d in H2, H5. rewrite H2, H5, !nth_map_seq by lia.
  apply recorrencia_monotona_na_taxa; try assumption.
  - now apply taxa_mensal_nonneg.
  - apply taxa_mensal_monotona; lra.
Qed.

Lemma X2_saldo_cdi_nao_supera_witness :
  0 <= 1000 /\ 0 <= 100 /\ 0 <= 10 /\ 10 <= 12 /\ (Z.of_nat 12 <= 12)%Z /\
  let d := projecao 1000 100 (taxa_mensal 12) (cdi_mensal 10) 12 in
  nth 12 (Saldo_CDI d) 0 <= nth 12 (Saldo_acumulado d) 0.
Proof.
  repeat (split; [lra || (simpl; lia) |]).
  apply (X2_saldo_cdi_nao_supera 1000 100 12 10 12 12); lra || (simpl; lia).
Defined.

(** ** Further properties of a whole run *)

(** X6. With a horizon of zero years and an annual rate above -100%, the
    table has the single month-0 row; the run returns if no target is
    entered, and stops on a division by zero in the reverse calculator as
    soon as one is. *)
Theorem X6_horizonte_zero (v a t c meta : R) :
  -100 < t ->
  linha (df v a t 0 c) 0 =
    Some {| mes := 0; saldo_acumulado := v; total_aportado := v + a * 0;
            ganho := v - (v + a * 0); saldo_CDI := v |} /\
  linha (df v a t 0 c) 1 = None /\
  (0 < meta -> executar v a t 0 c meta = Erro ZeroDivisionError) /\
  (meta <= 0 -> exists pg : Pagina,
     executar v a t 0 c meta = Ok pg /\ valor_final pg = v /\ reversa pg = nada).
Proof.
  intros _.
  split; [reflexivity |]. split; [reflexivity |].
  split; [apply executar_horizonte_zero |].
  intros Hm. unfold executar.
  rewrite calculadora_reversa_sem_meta by assumption.
  eexists. split; [reflexivity |]. split; reflexivity.
Qed.

Lemma X6_horizonte_zero_witness :
  -100 < 12 /\ 0 < 5000 /\ 0 <= 0 /\
  executar 1000 100 12 0 10 5000 = Erro ZeroDivisionError /\
  exists pg : Pagina,
    executar 1000 100 12 0 10 0 = Ok pg /\ valor_final pg = 1000 /\ reversa pg = nada.
Proof.
  split; [lra |]. split; [lra |]. split; [lra |].
  split.
  - destruct (X6_horizonte_zero 1000 100 12 10 5000 ltac:(lra)) as (_ & _ & H & _).
    apply H. lra.
  - destruct (X6_horizonte_zero 1000 100 12 10 0 ltac:(lra)) as (_ & _ & _ & H).
    apply H. lra.
Defined.

(** X7. With a negative number of years the loop body never runs, the four
    lists stay empty and the summary's [saldos[-1]] raises [IndexError],
    whatever the other inputs are. *)
Theorem X7_horizonte_negativo (v a t c meta : R) (anos : Z) :
  (anos < 0)%Z ->
  saldos (laco v a (taxa_mensal t) (cdi_mensal c) (meses anos)) = [] /\
  executar v a t anos c meta = Erro IndexError.
Proof.
  intros Hanos. split; [| now apply executar_horizonte_negativo].
  rewrite laco_saldos.
  replace (Z.to_nat (meses anos + 1)) with 0%nat by (unfold meses; lia).
  reflexivity.
Qed.

Lemma X7_horizonte_negativo_witness :
  (-1 < 0)%Z /\ executar 1000 100 12 (-1) 10 0 = Erro IndexError.
Proof.
  split; [lia |].
  apply (X7_horizonte_negativo 1000 100 12 10 0 (-1)). lia.
Defined.

(** X8. The three metrics of the summary are the last row of the table: for
    a horizon of at least one year, a run that returns shows as final value,
    total paid in and gains the entries of the row of month [12 * anos],
    after which the table has no further row. *)
Theorem X8_resumo_e_ultima_linha (v a t c meta : R) (anos : Z) (pg : Pagina) :
  (1 <= anos)%Z ->
  executar v a t anos c meta = Ok pg ->
  (exists p : Linha,
     linha (tabela pg) (Z.to_nat (meses anos)) = Some p /\
     mes p = meses anos /\
     saldo_acumulado p = valor_final pg /\
     total_aportado p = total_aportado_final pg /\
     ganho p = ganhos_finais pg) /\
  linha (tabela pg) (S (Z.to_nat (meses anos))) = None /\
  ganhos_finais pg = valor_final pg - total_aportado_final pg /\
  total_aportado_final pg = v + a * IZR (12 * anos).
Proof.
  intros Hanos He.
  assert (Hn : (1 <= meses anos)%Z) by (unfold meses; lia).
  rewrite (executar_forma v a t anos c meta Hanos) in He.
  destruct (calculadora_reversa meta v (taxa_mensal t) (meses anos)) as [r | e];
    [| discriminate].
  cbn [bind] in He. injection He as <-.
  cbn [tabela valor_final total_aportado_final ganhos_finais].
  unfold df. rewrite !linha_projecao.
  replace (Z.to_nat (meses anos) <? Z.to_nat (meses anos + 1))%nat with true
    by (symmetry; apply Nat.ltb_lt; lia).
  replace (S (Z.to_nat (meses anos)) <? Z.to_nat (meses anos + 1))%nat with false
    by (symmetry; apply Nat.ltb_ge; lia).
  rewrite Z2Nat.id by lia.
  split.
  - eexists. split; [reflexivity |]. cbn. repeat split; reflexivity.
  - split; [reflexivity |]. split; [reflexivity |].
    unfold meses. now rewrite Z.mul_comm.
Qed.

Lemma X8_resumo_e_ultima_linha_witness :
  (1 <= 1)%Z /\
  exists pg : Pagina,
    executar 1000 100 12 1 10 0 = Ok pg /\
    ganhos_finais pg = valor_final pg - total_aportado_final pg /\
    total_aportado_final pg = 1000 + 100 * IZR (12 * 1).
Proof.
  split; [lia |].
  pose proof (executar_forma 1000 100 12 1 10 0 ltac:(lia)) as He.
  rewrite calculadora_reversa_sem_meta in He by lra. cbn [bind] in He.
  eexists. split; [exact He |].
  destruct (X8_resumo_e_ultima_linha 1000 100 12 10 0 1 _ ltac:(lia) He)
    as (_ & _ & Hg & Ht).
  split; [exact Hg | exact Ht].
Defined.

(** ** Dictionaries *)

Lemma dict_get_set_same {V : Type} (d : dict V) (k : string) (v : V) :
  dict_get (dict_set d k v) k = Some v.
Proof.
  induction d as [| [k' v'] r IH]; simpl.
  - now rewrite String.eqb_refl.
  - destruct (String.eqb k' k) eqn:E; simpl; rewrite E; [reflexivity | exact IH].
Qed.

Lemma dict_get_set_other {V : Type} (d : dict V) (k k0 : string) (v : V) :
  k0 <> k -> dict_get (dict_set d k v) k0 = dict_get d k0.
Proof.
  intros Hk. induction d as [| [k' v'] r IH]; simpl.
  - apply String.eqb_neq in Hk. rewrite String.eqb_sym in Hk. now rewrite Hk.
  - destruct (String.eqb k' k) eqn:E; simpl.
    + apply String.eqb_eq in E. subst k'.
      apply String.eqb_neq in Hk. rewrite String.eqb_sym in Hk. now rewrite Hk.
    + destruct (String.eqb k' k0); [reflexivity | exact IH].
Qed.

Lemma dict_get_None {V : Type} (d : dict V) (k : string) :
  dict_get d k = None <-> ~ In k (dict_keys d).
Proof.
  induction d as [| [k' v'] r IH]; simpl.
  - tauto.
  - destruct (String.eqb k' k) eqn:E.
    + apply String.eqb_eq in E. split; [discriminate | intros H; elim H; now left].
    + apply String.eqb_neq in E. rewrite IH. tauto.
Qed.

Lemma dict_get_Some_In {V : Type} (d : dict V) (k : string) :
  In k (dict_keys d) -> exists v : V, dict_get d k = Some v.
Proof.
  intros H. destruct (dict_get d k) as [v |] eqn:E; [now exists v |].
  apply dict_get_None in E. contradiction.
Qed.

Lemma dict_keys_set {V : Type} (d : dict V) (k : string) (v : V) :
  dict_keys (dict_set d k v) =
  match dict_get d k with
  | Some _ => dict_keys d
  | None => dict_keys d ++ [k]
  end.
Proof.
  induction d as [| [k' v'] r IH]; simpl; [reflexivity |].
  destruct (String.eqb k' k) eqn:E; simpl; [reflexivity |].
  rewrite IH. now destruct (dict_get r k).
Qed.

Lemma dict_set_In {V : Type} (d : dict V) (k : string) (v : V) (k0 : string) :
  In k0 (dict_keys (dict_set d k v)) <-> In k0 (dict_keys d) \/ k0 = k.
Proof.
  rewrite dict_keys_set. destruct (dict_get d k) as [w |] eqn:E.
  - split; [tauto |]. intros [H | ->]; [assumption |].
    destruct (in_dec string_dec k (dict_keys d)) as [Hin | Hout]; [assumption |].
    apply dict_get_None in Hout. congruence.
  - rewrite in_app_iff. simpl. intuition.
Qed.

Lemma dict_set_NoDup {V : Type} (d : dict V) (k : string) (v : V) :
  NoDup (dict_keys d) -> NoDup (dict_keys (dict_set d k v)).
Proof.
  intros H. rewrite dict_keys_set. destruct (dict_get d k) as [w |] eqn:E.
  - assumption.
  - apply dict_get_None in E.
    apply NoDup_app; [assumption | repeat constructor; intros [] |].
    intros x Hx [<- | []]. contradiction.
Qed.

Lemma dict_del_Some {V : Type} (d : dict V) (k : string) :
  In k (dict_keys d) -> exists d' : dict V, dict_del d k = Some d'.
Proof.
  induction d as [| [k' v'] r IH]; simpl; [tauto |].
  intros H. destruct (String.eqb k' k) eqn:E; [now eexists |].
  apply String.eqb_neq in E.
  destruct IH as (r' & Hr); [tauto |]. rewrite Hr. now eexists.
Qed.

Lemma dict_del_keys {V : Type} (d d' : dict V) (k : string) :
  NoDup (dict_keys d) -> dict_del d k = Some d' ->
  dict_keys d' = filter (fun x => negb (String.eqb x k)) (dict_keys d).
Proof.
  revert d'. induction d as [| [k' v'] r IH]; simpl; intros d' Hnd Hd; [discriminate |].
  inversion Hnd as [| ? ? Hout Hnd']; subst.
  destruct (String.eqb k' k) eqn:E; simpl.
  - injection Hd as <-. apply String.eqb_eq in E. subst k'.
    symmetry. apply forallb_filter_id.
    apply forallb_forall. intros x Hx.
    destruct (String.eqb x k) eqn:Ex; [| reflexivity].
    apply String.eqb_eq in Ex. subst x. contradiction.
  - destruct (dict_del r k) as [r' |] eqn:Er; [| discriminate].
    injection Hd as <-. simpl. f_equal. now apply IH.
Qed.

Lemma dict_get_del_other {V : Type} (d d' : dict V) (k k0 : string) :
  dict_del d k = Some d' -> k0 <> k -> dict_get d' k0 = dict_get d k0.
Proof.
  revert d'. induction d as [| [k' v'] r IH]; simpl; intros d' Hd Hk; [discriminate |].
  destruct (String.eqb k' k) eqn:E.
  - injection Hd as <-. apply String.eqb_eq in E. subst k'.
    apply String.eqb_neq in Hk. rewrite String.eqb_sym in Hk. now rewrite Hk.
  - destruct (dict_del r k) as [r' |] eqn:Er; [| discriminate].
    injection Hd as <-. simpl.
    destruct (String.eqb k' k0); [reflexivity | now apply IH].
Qed.

Lemma dict_del_sub {V : Type} (d d' : dict V) (k : string) (kv : string * V) :
  dict_del d k = Some d' -> In kv d' -> In kv d.
Proof.
  revert d'. induction d as [| [k' v'] r IH]; simpl; intros d' Hd Hin; [discriminate |].
  destruct (String.eqb k' k).
  - injection Hd as <-. now right.
  - destruct (dict_del r k) as [r' |]; [| discriminate].
    injection Hd as <-. destruct Hin as [<- | Hin]; [now left | right; now apply (IH r')].
Qed.

Lemma dict_set_sub {V : Type} (d : dict V) (k : string) (v : V) (kv : string * V) :
  In kv (dict_set d k v) -> In kv d \/ snd kv = v.
Proof.
  induction d as [| [k' v'] r IH]; simpl.
  - intros [<- | []]. now right.
  - destruct (String.eqb k' k); simpl.
    + intros [<- | H]; [now right | left; now right].
    + intros [<- | H]; [left; now left |]. destruct (IH H); [left; now right | now right].
Qed.

Lemma dict_get_In {V : Type} (d : dict V) (k : string) (v : V) :
  dict_get d k = Some v -> In (k, v) d.
Proof.
  induction d as [| [k' v'] r IH]; simpl; [discriminate |].
  destruct (String.eqb k' k) eqn:E.
  - apply String.eqb_eq in E. subst k'. intros [= ->]. now left.
  - intros H. right. now apply IH.
Qed.

Lemma dict_del_NoDup {V : Type} (d d' : dict V) (k : string) :
  NoDup (dict_keys d) -> dict_del d k = Some d' -> NoDup (dict_keys d').
Proof.
  intros Hnd Hd. rewrite (dict_del_keys d d' k Hnd Hd). now apply NoDup_filter.
Qed.

Lemma dict_del_keys_sub {V : Type} (d d' : dict V) (k k0 : string) :
  dict_del d k = Some d' -> In k0 (dict_keys d') -> In k0 (dict_keys d).
Proof.
  intros Hd Hin. unfold dict_keys in *. apply in_map_iff in Hin.
  destruct Hin as (kv & <- & Hkv). apply in_map. now apply (dict_del_sub d d' k).
Qed.

(** ** Scenario management *)

Lemma verdadeiro_nao_vazio (s : string) : verdadeiro s = true <-> s <> ""%string.
Proof.
  unfold verdadeiro. rewrite Bool.negb_true_iff. apply String.eqb_neq.
Qed.

Lemma cenario_de_completo (x : Variaveis) : completo (cenario_de x).
Proof.
  intros k Hk. unfold chaves_obrigatorias in Hk. simpl in Hk.
  destruct Hk as [<- | [<- | [<- | [<- | []]]]]; discriminate.
Qed.

Lemma ler_cenario_de (x : Variaveis) : ler_cenario (cenario_de x) = inr x.
Proof. destruct x. reflexivity. Qed.

Lemma ler_cenario_completo (dados : Cenario) :
  completo dados -> exists x : Variaveis, ler_cenario dados = inr x.
Proof.
  intros Hc. unfold ler_cenario, subscrito.
  destruct (dict_get dados "valor_inicial") eqn:E1;
    [| elim (Hc "valor_inicial"%string); [simpl; tauto | assumption]].
  destruct (dict_get dados "aporte_mensal") eqn:E2;
    [| elim (Hc "aporte_mensal"%string); [simpl; tauto | assumption]].
  destruct (dict_get dados "taxa_anual") eqn:E3;
    [| elim (Hc "taxa_anual"%string); [simpl; tauto | assumption]].
  destruct (dict_get dados "anos") eqn:E4;
    [| elim (Hc "anos"%string); [simpl; tauto | assumption]].
  now eexists.
Qed.

(** X9. What a load can find in a scenario.  When the four keys read with a
    subscript are present, the load takes their values as they are and, for
    a scenario without the key ["cdi_medio"], falls back to [0.0]; when one
    of the four is absent the load stops on the [KeyError] of an absent
    key.  *)
Theorem X9_ler_cenario (dados : Cenario) :
  (completo dados ->
   exists x : Variaveis,
     ler_cenario dados = inr x /\
     dict_get dados "valor_inicial" = Some (var_valor_inicial x) /\
     dict_get dados "aporte_mensal" = Some (var_aporte_mensal x) /\
     dict_get dados "taxa_anual" = Some (var_taxa_anual x) /\
     dict_get dados "anos" = Some (var_anos x) /\
     (dict_get dados "cdi_medio" = None -> var_cdi_medio x = Float 0) /\
     (forall c : numero,
        dict_get dados "cdi_medio" = Some c -> var_cdi_medio x = c)) /\
  (forall e : erro_de_chave,
     ler_cenario dados = inl e ->
     exists k : string,
       e = KeyError k /\ In k chaves_obrigatorias /\ dict_get dados k = None).
Proof.
  split.
  - intros Hc. unfold ler_cenario, subscrito.
    destruct (dict_get dados "valor_inicial") eqn:E1;
      [| elim (Hc "valor_inicial"%string); [simpl; tauto | assumption]].
    destruct (dict_get dados "aporte_mensal") eqn:E2;
      [| elim (Hc "aporte_mensal"%string); [simpl; tauto | assumption]].
    destruct (dict_get dados "taxa_anual") eqn:E3;
      [| elim (Hc "taxa_anual"%string); [simpl; tauto | assumption]].
    destruct (dict_get dados "anos") eqn:E4;
      [| elim (Hc "anos"%string); [simpl; tauto | assumption]].
    eexists. split; [reflexivity |]. cbn.
    repeat (split; [reflexivity |]).
    split; [intros -> | intros c ->]; reflexivity.
  - intros e. unfold ler_cenario, subscrito.
    destruct (dict_get dados "valor_inicial") eqn:E1;
      [| intros [= <-]; eexists; split; [reflexivity |]; split;
         [simpl; tauto | assumption]].
    destruct (dict_get dados "aporte_mensal") eqn:E2;
      [| intros [= <-]; eexists; split; [reflexivity |]; split;
         [simpl; tauto | assumption]].
    destruct (dict_get dados "taxa_anual") eqn:E3;
      [| intros [= <-]; eexists; split; [reflexivity |]; split;
         [simpl; tauto | assumption]].
    destruct (dict_get dados "anos") eqn:E4;
      [| intros [= <-]; eexists; split; [reflexivity |]; split;
         [simpl; tauto | assumption]].
    discriminate.
Qed.

Lemma X9_ler_cenario_witness :
  let antigo : Cenario :=
    [("valor_inicial"%string, Float 1000); ("aporte_mensal"%string, Float 100);
     ("taxa_anual"%string, Float 12); ("anos"%string, Int 10)] in
  completo antigo /\
  exists x : Variaveis,
    ler_cenario antigo = inr x /\ var_cdi_medio x = Float 0 /\ var_anos x = Int 10.
Proof.
  intros antigo.
  assert (Hc : completo antigo).
  { intros k Hk. unfold chaves_obrigatorias in Hk. simpl in Hk.
    destruct Hk as [<- | [<- | [<- | [<- | []]]]]; discriminate. }
  split; [exact Hc |].
  destruct (X9_ler_cenario antigo) as (H & _).
  destruct (H Hc) as (x & Hx & _ & _ & _ & Han & Hcdi & _).
  exists x. split; [exact Hx |]. split; [now apply Hcdi |].
  simpl in Han. now injection Han as <-.
Defined.

Section Gestao.

Variable strip : string -> string.

Lemma bloco_salvar_em_dia (clicado : bool) (nome : string) (g : Gestao) :
  em_dia g -> em_dia (bloco_salvar strip clicado nome g).
Proof.
  intros H. unfold bloco_salvar.
  destruct clicado; [| assumption].
  destruct (verdadeiro (strip nome)); [reflexivity | exact H].
Qed.

Lemma bloco_salvar_bem_formados (clicado : bool) (nome : string) (g : Gestao) :
  cenarios_bem_formados strip (cenarios g) ->
  cenarios_bem_formados strip (cenarios (bloco_salvar strip clicado nome g)).
Proof.
  intros (Hnd & Hk & Hc). unfold bloco_salvar.
  destruct clicado; [| now repeat split].
  destruct (verdadeiro (strip nome)) eqn:E; cbn [cenarios]; [| now repeat split].
  split; [now apply dict_set_NoDup |]. split.
  - intros k Hin. apply dict_set_In in Hin. destruct Hin as [Hin | ->]; auto.
  - intros k dados Hin. apply dict_set_sub in Hin. destruct Hin as [Hin | Heq].
    + now apply (Hc k).
    + simpl in Heq. subst dados. apply cenario_de_completo.
Qed.

Lemma bloco_carregar_mantem (clicado : bool) (opcao : string) (g g' : Gestao) :
  bloco_carregar clicado opcao g = inr g' ->
  arquivo g' = arquivo g /\ cenarios g' = cenarios g.
Proof.
  unfold bloco_carregar.
  destruct (verdadeiro opcao); [| now intros [= <-]].
  destruct clicado; [| now intros [= <-]].
  destruct (subscrito (cenarios g) opcao) as [e | dados]; [discriminate |].
  destruct (ler_cenario dados) as [e | x]; [discriminate |].
  intros [= <-]. split; reflexivity.
Qed.

Lemma bloco_excluir_em_dia (clicado : bool) (opcao : string) (g g' : Gestao) :
  em_dia g -> bloco_excluir clicado opcao g = inr g' -> em_dia g'.
Proof.
  intros H. unfold bloco_excluir.
  destruct (verdadeiro opcao); [| now intros [= <-]].
  destruct clicado; [| now intros [= <-]].
  destruct (dict_del (cenarios g) opcao) as [c |]; [| discriminate].
  intros [= <-]. reflexivity.
Qed.

Lemma bloco_excluir_bem_formados (clicado : bool) (opcao : string) (g g' : Gestao) :
  cenarios_bem_formados strip (cenarios g) ->
  bloco_excluir clicado opcao g = inr g' ->
  cenarios_bem_formados strip (cenarios g').
Proof.
  intros (Hnd & Hk & Hc). unfold bloco_excluir.
  destruct (verdadeiro opcao); [| intros [= <-]; now repeat split].
  destruct clicado; [| intros [= <-]; now repeat split].
  destruct (dict_del (cenarios g) opcao) as [c |] eqn:Ed; [| discriminate].
  intros [= <-]. cbn [cenarios].
  split; [now apply (dict_del_NoDup (cenarios g) c opcao) |]. split.
  - intros k Hin. apply Hk. now apply (dict_del_keys_sub (cenarios g) c opcao).
  - intros k dados Hin. apply (Hc k). now apply (dict_del_sub (cenarios g) c opcao).
Qed.

(** X10. Save, then load.  A scenario saved under a name that passes the
    test of l.51 is offered by the select box of the next run, and loading
    it there gives the five variables the values they had when it was
    saved, whatever the widgets hold by then. *)
Theorem X10_salvar_e_carregar (f : Arquivo) (x x' : Variaveis)
    (nome nome' opcao : string) :
  strip "" = ""%string ->
  verdadeiro (strip nome) = true ->
  exists f1 : Arquivo,
    gestao strip f x nome true opcao false false =
      (f1, inr {| arquivo := f1; cenarios := carregar_cenarios f1;
                  variaveis := x; avisos := [cenario_salvo nome] |}) /\
    In nome (opcoes strip f1 x' nome' false) /\
    gestao strip f1 x' nome' false nome true false =
      (f1, inr {| arquivo := f1; cenarios := carregar_cenarios f1;
                  variaveis := x; avisos := [cenario_carregado nome] |}).
Proof.
  intros Hs Hnome.
  assert (Hne : verdadeiro nome = true).
  { apply verdadeiro_nao_vazio. intros ->. rewrite Hs in Hnome. discriminate. }
  exists (Some (dict_set (carregar_cenarios f) nome (cenario_de x))).
  split; [| split].
  - unfold gestao, bloco_salvar, bloco_carregar, bloco_excluir.
    cbn [cenarios variaveis avisos arquivo]. rewrite Hnome.
    destruct (verdadeiro opcao); reflexivity.
  - unfold opcoes, bloco_salvar. cbn [cenarios carregar_cenarios].
    right. apply dict_set_In. now right.
  - unfold gestao, bloco_salvar, bloco_carregar, bloco_excluir.
    cbn [cenarios variaveis avisos arquivo carregar_cenarios].
    rewrite Hne. unfold subscrito. rewrite dict_get_set_same.
    rewrite ler_cenario_de. reflexivity.
Qed.

(** X11. What a click on "Salvar" does to the file.  With a name that is
    blank for the test of l.51 nothing is written, not even a file that
    did not exist, and the run only shows the request for a name.
    Otherwise the file holds the scenario under that name, every other
    scenario as before, and the names in their former order, a new name
    going last. *)
Theorem X11_salvar (f : Arquivo) (x : Variaveis) (nome opcao : string) :
  (verdadeiro (strip nome) = false ->
   gestao strip f x nome true opcao false false =
     (f, inr {| arquivo := f; cenarios := carregar_cenarios f;
                variaveis := x; avisos := [digite_um_nome] |})) /\
  (verdadeiro (strip nome) = true ->
   exists c1 : Cenarios,
     fst (gestao strip f x nome true opcao false false) = Some c1 /\
     dict_get c1 nome = Some (cenario_de x) /\
     (forall k : string,
        k <> nome -> dict_get c1 k = dict_get (carregar_cenarios f) k) /\
     dict_keys c1 =
       match dict_get (carregar_cenarios f) nome with
       | Some _ => dict_keys (carregar_cenarios f)
       | None => dict_keys (carregar_cenarios f) ++ [nome]
       end).
Proof.
  split; intros Hnome.
  - unfold gestao, bloco_salvar, bloco_carregar, bloco_excluir.
    cbn [cenarios variaveis avisos arquivo]. rewrite Hnome.
    cbn [cenarios variaveis avisos arquivo app].
    destruct (verdadeiro opcao); reflexivity.
  - exists (dict_set (carregar_cenarios f) nome (cenario_de x)).
    split; [| split; [| split]].
    + unfold gestao, bloco_salvar, bloco_carregar, bloco_excluir.
      cbn [cenarios variaveis avisos arquivo]. rewrite Hnome.
      destruct (verdadeiro opcao); reflexivity.
    + apply dict_get_set_same.
    + intros k Hk. now apply dict_get_set_other.
    + apply dict_keys_set.
Qed.

(** X12. What a click on "Excluir" does to the file.  For an entry of the
    select box other than the empty one, the run raises nothing, the
    scenario is gone from the file, every other scenario is as before and
    the remaining names keep their order. *)
Theorem X12_excluir (f : Arquivo) (x : Variaveis) (nome opcao : string) :
  NoDup (dict_keys (carregar_cenarios f)) ->
  In opcao (dict_keys (carregar_cenarios f)) ->
  verdadeiro opcao = true ->
  exists c' : Cenarios,
    gestao strip f x nome false opcao false true =
      (Some c', inr {| arquivo := Some c'; cenarios := c'; variaveis := x;
                       avisos := [cenario_excluido opcao] |}) /\
    dict_get c' opcao = None /\
    (forall k : string,
       k <> opcao -> dict_get c' k = dict_get (carregar_cenarios f) k) /\
    dict_keys c' =
      filter (fun k => negb (String.eqb k opcao)) (dict_keys (carregar_cenarios f)).
Proof.
  intros Hnd Hin Hop.
  destruct (dict_del_Some (carregar_cenarios f) opcao Hin) as (c' & Hd).
  pose proof (dict_del_keys _ _ _ Hnd Hd) as Hkeys.
  exists c'. split; [| split; [| split]].
  - unfold gestao, bloco_salvar, bloco_carregar, bloco_excluir.
    cbn [cenarios variaveis avisos arquivo]. rewrite Hop.
    cbn [cenarios variaveis avisos arquivo]. rewrite Hd. reflexivity.
  - apply dict_get_None. rewrite Hkeys. intros H. apply filter_In in H.
    destruct H as (_ & H). now rewrite String.eqb_refl in H.
  - intros k Hk. now apply (dict_get_del_other _ _ opcao).
  - exact Hkeys.
Qed.

(** X13. Every run leaves the file well formed if it found it so, whatever
    is typed, picked or clicked, and whether or not the run is stopped by a
    [KeyError]: the names stay pairwise distinct, each of them passes the
    test of l.51 (so none is the empty entry of the select box), and each
    scenario has the four keys a load reads. *)
Theorem X13_gestao_preserva (f : Arquivo) (x : Variaveis) (nome : string)
    (salvar : bool) (opcao : string) (carregar excluir : bool) :
  cenarios_bem_formados strip (carregar_cenarios f) ->
  cenarios_bem_formados strip
    (carregar_cenarios (fst (gestao strip f x nome salvar opcao carregar excluir))).
Proof.
  intros Hwf. unfold gestao.
  set (g0 := {| arquivo := f; cenarios := carregar_cenarios f;
                variaveis := x; avisos := [] |}).
  assert (Hd0 : em_dia g0) by reflexivity.
  pose proof (bloco_salvar_em_dia salvar nome g0 Hd0) as Hd1.
  pose proof (bloco_salvar_bem_formados salvar nome g0 Hwf) as Hw1.
  set (g1 := bloco_salvar strip salvar nome g0) in *.
  destruct (bloco_carregar carregar opcao g1) as [e | g2] eqn:E2; cbn [fst].
  - now rewrite Hd1.
  - destruct (bloco_carregar_mantem _ _ _ _ E2) as (Ha & Hc).
    assert (Hd2 : em_dia g2) by (unfold em_dia; now rewrite Ha, Hc).
    assert (Hw2 : cenarios_bem_formados strip (cenarios g2)) by now rewrite Hc.
    destruct (bloco_excluir excluir opcao g2) as [e | g3] eqn:E3; cbn [fst].
    + now rewrite Hd2.
    + rewrite (bloco_excluir_em_dia _ _ _ _ Hd2 E3).
      now apply (bloco_excluir_bem_formados _ _ _ _ Hw2 E3).
Qed.

(** X14. On a well-formed file no run is stopped by a [KeyError], provided
    the option is one the select box of that run offers. *)
Theorem X14_gestao_sem_KeyError (f : Arquivo) (x : Variaveis) (nome : string)
    (salvar : bool) (opcao : string) (carregar excluir : bool) :
  cenarios_bem_formados strip (carregar_cenarios f) ->
  In opcao (opcoes strip f x nome salvar) ->
  exists g : Gestao,
    snd (gestao strip f x nome salvar opcao carregar excluir) = inr g.
Proof.
  intros Hwf Hop. unfold gestao. unfold opcoes in Hop.
  set (g0 := {| arquivo := f; cenarios := carregar_cenarios f;
                variaveis := x; avisos := [] |}) in *.
  pose proof (bloco_salvar_bem_formados salvar nome g0 Hwf) as Hw1.
  set (g1 := bloco_salvar strip salvar nome g0) in *.
  destruct Hw1 as (Hnd & Hk & Hc).
  destruct (verdadeiro opcao) eqn:Ev.
  - assert (Hin : In opcao (dict_keys (cenarios g1))).
    { destruct Hop as [<- | H]; [discriminate | assumption]. }
    destruct (dict_get_Some_In _ _ Hin) as (dados & Hget).
    destruct (ler_cenario_completo dados (Hc opcao dados (dict_get_In _ _ _ Hget)))
      as (y & Hy).
    destruct (dict_del_Some _ _ Hin) as (c' & Hdel).
    unfold bloco_carregar, bloco_excluir, subscrito. rewrite Ev, Hget, Hy.
    destruct carregar; cbn [cenarios]; rewrite ?Hdel;
      destruct excluir; cbn [snd]; eexists; reflexivity.
  - unfold bloco_carregar, bloco_excluir. rewrite Ev. cbn [snd]. now eexists.
Qed.

End Gestao.

(** ** The management theorems at concrete inputs, with [strip_ascii] *)

Lemma strip_ascii_vazio : strip_ascii "" = ""%string.
Proof. reflexivity. Qed.

Lemma strip_ascii_base : verdadeiro (strip_ascii "base") = true.
Proof. reflexivity. Qed.

Lemma strip_ascii_em_branco :
  verdadeiro (strip_ascii (String " " (String "009" " "))) = false.
Proof. reflexivity. Qed.

Lemma sem_cenarios_bem_formados (strip : string -> string) :
  cenarios_bem_formados strip (carregar_cenarios None).
Proof.
  split; [constructor |]. split; [intros k [] | intros k dados []].
Qed.

Lemma X10_salvar_e_carregar_witness :
  strip_ascii "" = ""%string /\
  verdadeiro (strip_ascii "base") = true /\
  exists f1 : Arquivo,
    gestao strip_ascii None (dos_widgets 1000 100 12 10 10) "base" true "" false false =
      (f1, inr {| arquivo := f1; cenarios := carregar_cenarios f1;
                  variaveis := dos_widgets 1000 100 12 10 10;
                  avisos := [cenario_salvo "base"] |}) /\
    gestao strip_ascii f1 (dos_widgets 0 0 0 1 0) "" false "base" true false =
      (f1, inr {| arquivo := f1; cenarios := carregar_cenarios f1;
                  variaveis := dos_widgets 1000 100 12 10 10;
                  avisos := [cenario_carregado "base"] |}).
Proof.
  split; [exact strip_ascii_vazio |]. split; [exact strip_ascii_base |].
  destruct (X10_salvar_e_carregar strip_ascii None (dos_widgets 1000 100 12 10 10)
              (dos_widgets 0 0 0 1 0) "base" "" "" strip_ascii_vazio strip_ascii_base)
    as (f1 & H1 & _ & H2).
  exists f1. split; [exact H1 | exact H2].
Defined.

Lemma X11_salvar_witness :
  verdadeiro (strip_ascii (String " " (String "009" " "))) = false /\
  gestao strip_ascii None (dos_widgets 1000 100 12 10 10)
    (String " " (String "009" " ")) true "" false false =
    (None, inr {| arquivo := None; cenarios := [];
                  variaveis := dos_widgets 1000 100 12 10 10;
                  avisos := [digite_um_nome] |}) /\
  verdadeiro (strip_ascii "base") = true /\
  exists c1 : Cenarios,
    fst (gestao strip_ascii None (dos_widgets 1000 100 12 10 10) "base" true ""
           false false) = Some c1 /\
    dict_keys c1 = ["base"%string].
Proof.
  split; [exact strip_ascii_em_branco |].
  split.
  - destruct (X11_salvar strip_ascii None (dos_widgets 1000 100 12 10 10)
                (String " " (String "009" " ")) "") as (H & _).
    exact (H strip_ascii_em_branco).
  - split; [exact strip_ascii_base |].
    destruct (X11_salvar strip_ascii None (dos_widgets 1000 100 12 10 10) "base" "")
      as (_ & H).
    destruct (H strip_ascii_base) as (c1 & Hf & _ & _ & Hk).
    exists c1. split; [exact Hf | exact Hk].
Defined.

Lemma X12_excluir_witness :
  let x := dos_widgets 1000 100 12 10 10 in
  let f : Arquivo := Some [("a"%string, cenario_de x); ("b"%string, cenario_de x)] in
  NoDup (dict_keys (carregar_cenarios f)) /\
  In "a"%string (dict_keys (carregar_cenarios f)) /\
  verdadeiro "a" = true /\
  exists c' : Cenarios,
    fst (gestao strip_ascii f x "" false "a" false true) = Some c' /\
    dict_get c' "a" = None /\
    dict_keys c' = ["b"%string].
Proof.
  intros x f.
  assert (Hnd : NoDup (dict_keys (carregar_cenarios f))).
  { cbn. constructor; [intros [H | []]; discriminate |].
    constructor; [intros [] | constructor]. }
  assert (Hin : In "a"%string (dict_keys (carregar_cenarios f))) by (cbn; tauto).
  split; [exact Hnd |]. split; [exact Hin |]. split; [reflexivity |].
  destruct (X12_excluir strip_ascii f x "" "a" Hnd Hin eq_refl)
    as (c' & Hg & Hnone & _ & Hk).
  exists c'. split; [now rewrite Hg |]. split; [exact Hnone | exact Hk].
Defined.

Lemma X13_gestao_preserva_witness :
  cenarios_bem_formados strip_ascii (carregar_cenarios None) /\
  cenarios_bem_formados strip_ascii
    (carregar_cenarios
       (fst (gestao strip_ascii None (dos_widgets 1000 100 12 10 10) "base" true
               "" false false))).
Proof.
  split; [apply sem_cenarios_bem_formados |].
  apply X13_gestao_preserva, sem_cenarios_bem_formados.
Defined.

Lemma X14_gestao_sem_KeyError_witness :
  cenarios_bem_formados strip_ascii (carregar_cenarios None) /\
  In "base"%string
     (opcoes strip_ascii None (dos_widgets 1000 100 12 10 10) "base" true) /\
  exists g : Gestao,
    snd (gestao strip_ascii None (dos_widgets 1000 100 12 10 10) "base" true
           "base" true true) = inr g.
Proof.
  assert (Hin : In "base"%string
                   (opcoes strip_ascii None (dos_widgets 1000 100 12 10 10) "base" true)).
  { unfold opcoes, bloco_salvar. rewrite strip_ascii_base. cbn. tauto. }
  split; [apply sem_cenarios_bem_formados |]. split; [exact Hin |].
  apply X14_gestao_sem_KeyError; [apply sem_cenarios_bem_formados | exact Hin].
Defined.
